(** * Network Connection Checker: the diagnostic functions and their properties

    The development embeds the diagnostic functions of the checker
    ([get_default_gateway], [get_ip_and_interface], [get_logon_server],
    [ping], [dns_query], [check_connection]) and the probe summariser of
    the GUI class ([_parse_ping_output] and the status tests of
    [_update_results]).

    Text is a [string]: a sequence of characters with code points 0..255.
    The operating system is an explicit oracle ([World]); every call that
    leaves the program is written to a trace, and exceptions are values
    of a result type. *)

From Stdlib Require Import Bool Arith List ZArith Lia.
From Stdlib Require Import Strings.Ascii Strings.String.
From Stdlib Require Import Numbers.DecimalString.
Import ListNotations.

Local Open Scope string_scope.
Local Open Scope list_scope.
Local Open Scope nat_scope.

(* ================================================================== *)
(** ** Python's [str] methods used by the program *)
(* ================================================================== *)

Module PyStr.

Definition LF : ascii := "010"%char.
Definition CR : ascii := "013"%char.

(** The text of one line feed. *)
Definition nl : string := String LF "".

Definition code (c : ascii) : nat := nat_of_ascii c.

(** [str.isspace] on one character, for code points below 256:
    tab, LF, VT, FF, CR, FS, GS, RS, US, space, NEL and NBSP. *)
Definition isspace (c : ascii) : bool :=
  let n := code c in
  ((9 <=? n) && (n <=? 13)) || ((28 <=? n) && (n <=? 32))
  || (n =? 133) || (n =? 160).

(** The line boundaries of [str.splitlines] below 256, CR LF apart:
    LF, VT, FF, CR, FS, GS, RS and NEL. *)
Definition is_linebreak (c : ascii) : bool :=
  let n := code c in
  ((10 <=? n) && (n <=? 13)) || ((28 <=? n) && (n <=? 30)) || (n =? 133).

Definition is_empty (s : string) : bool :=
  match s with EmptyString => true | String _ _ => false end.

(** Append one character at the end of the current piece. *)
Definition snoc (s : string) (c : ascii) : string := s ++ String c "".

(** [s.split()]: the maximal runs of non-whitespace characters.
    [cur] is the token being read. *)
Fixpoint split_from (s cur : string) : list string :=
  match s with
  | EmptyString => if is_empty cur then [] else [cur]
  | String c s' =>
      if isspace c
      then (if is_empty cur then split_from s' "" else cur :: split_from s' "")
      else split_from s' (snoc cur c)
  end.

Definition split (s : string) : list string := split_from s "".

(** [s.split(sep)] for a one-character separator: always at least one
    piece, empty pieces kept. *)
Fixpoint split_on_from (sep : ascii) (s cur : string) : list string :=
  match s with
  | EmptyString => [cur]
  | String c s' =>
      if Ascii.eqb c sep
      then cur :: split_on_from sep s' ""
      else split_on_from sep s' (snoc cur c)
  end.

Definition split_on (sep : ascii) (s : string) : list string :=
  split_on_from sep s "".

(** [s.splitlines()]: CR LF is one boundary; a final boundary opens no
    further line; the empty text has no line. *)
Fixpoint splitlines_from (s cur : string) : list string :=
  match s with
  | EmptyString => if is_empty cur then [] else [cur]
  | String c s' =>
      if Ascii.eqb c CR
      then match s' with
           | String d s'' =>
               if Ascii.eqb d LF
               then cur :: splitlines_from s'' ""
               else cur :: splitlines_from s' ""
           | EmptyString => cur :: splitlines_from s' ""
           end
      else if is_linebreak c
           then cur :: splitlines_from s' ""
           else splitlines_from s' (snoc cur c)
  end.

Definition splitlines (s : string) : list string := splitlines_from s "".

(** [s.startswith(p)]. *)
Definition startswith (p s : string) : bool := String.prefix p s.

(** [needle in hay]. *)
Fixpoint contains (needle hay : string) : bool :=
  String.prefix needle hay
  || match hay with
     | EmptyString => false
     | String _ hay' => contains needle hay'
     end.

(** [str.lower] on one character below 256: A-Z, and the Latin-1
    capitals 192..222 but the multiplication sign 215. *)
Definition lower_char (c : ascii) : ascii :=
  let n := code c in
  if ((65 <=? n) && (n <=? 90))
     || ((192 <=? n) && (n <=? 222) && negb (n =? 215))
  then ascii_of_nat (n + 32)
  else c.

Fixpoint lower (s : string) : string :=
  match s with
  | EmptyString => EmptyString
  | String c s' => String (lower_char c) (lower s')
  end.

Fixpoint lstrip (s : string) : string :=
  match s with
  | EmptyString => EmptyString
  | String c s' => if isspace c then lstrip s' else s
  end.

Fixpoint rstrip (s : string) : string :=
  match s with
  | EmptyString => EmptyString
  | String c s' =>
      let r := rstrip s' in
      if is_empty r && isspace c then EmptyString else String c r
  end.

(** [s.strip()]. *)
Definition strip (s : string) : string := rstrip (lstrip s).

(** Truth value of a string in a condition: non-empty. *)
Definition truthy (s : string) : bool := negb (is_empty s).

End PyStr.

Import PyStr.

(* ================================================================== *)
(** ** Exceptions, the operating system and the effect monad *)
(* ================================================================== *)

(** The exception classes that reach the program.  [CalledProcessError]
    carries the exit status and the captured text; [OSError] stands for
    the whole family ([FileNotFoundError], [PermissionError],
    [socket.gaierror], ...: [socket.error] is [OSError]);
    [OtherException] is any other subclass of [Exception]. *)
Inductive exn : Type :=
| CalledProcessError (returncode : Z) (output : string)
| OSError
| OtherException.

Inductive result (A : Type) : Type :=
| Ok (a : A)
| Raise (e : exn).
Arguments Ok {A} a.
Arguments Raise {A} e.

(** What running a child process comes to: it ran and exited with a status
    and the captured text, or it could not be started. *)
Inductive proc : Type :=
| Exited (returncode : Z) (captured : string)
| NotLaunched.

Inductive AddressFamily : Type := AF_INET | AF_INET6 | AF_LINK.

Definition family_eqb (a b : AddressFamily) : bool :=
  match a, b with
  | AF_INET, AF_INET | AF_INET6, AF_INET6 | AF_LINK, AF_LINK => true
  | _, _ => false
  end.

(** The fields of psutil's [snicaddr] that the program reads. *)
Record snicaddr : Type := mk_snicaddr {
  family : AddressFamily;
  address : string
}.

(** The operating system at the time of the call. *)
Record World : Type := mk_World {
  system : string;                             (* platform.system() *)
  interpreter : option (string -> Z * string); (* the command interpreter, when it
                                                  can be started: exit status and
                                                  captured standard output of a
                                                  command line *)
  exec : list string -> proc;                  (* an argument vector run directly,
                                                  standard error merged in *)
  net_if_addrs : result (list (string * list snicaddr));
                                               (* psutil.net_if_addrs().items() *)
  gethostbyname : string -> result string      (* socket.gethostbyname *)
}.

(** A command line handed to the interpreter ([shell=True]). *)
Definition shell (w : World) (command : string) : proc :=
  match interpreter w with
  | Some run => Exited (fst (run command)) (snd (run command))
  | None => NotLaunched
  end.

(** Every call that leaves the program. *)
Inductive event : Type :=
| EvShell (command : string)
| EvExec (argv : list string)
| EvNetIfAddrs
| EvResolve (hostname : string).

(** The five [StringVar]s that [check_connection] writes, and the trace. *)
Record State : Type := mk_State {
  gw_result : string;
  ip_result : string;
  interface_result : string;
  dns_result : string;
  logon_server_result : string;
  trace : list event
}.

(** A fresh [StringVar] holds the empty string. *)
Definition initial : State := mk_State "" "" "" "" "" [].

Definition M (A : Type) : Type := State -> State * result A.

Definition ret {A} (a : A) : M A := fun st => (st, Ok a).

Definition bind {A B} (m : M A) (k : A -> M B) : M B :=
  fun st =>
    match m st with
    | (st', Ok a) => k a st'
    | (st', Raise e) => (st', Raise e)
    end.

(** [try: m  except <classes>: h]. *)
Definition try_except {A} (m : M A) (caught : exn -> bool) (h : M A) : M A :=
  fun st =>
    match m st with
    | (st', Ok a) => (st', Ok a)
    | (st', Raise e) => if caught e then h st' else (st', Raise e)
    end.

Notation "x <- m ;; k" := (bind m (fun x => k))
  (at level 61, m at next level, right associativity).
Notation "m ;;; k" := (bind m (fun _ => k))
  (at level 61, right associativity).

Definition emit (e : event) : M unit :=
  fun st =>
    (mk_State (gw_result st) (ip_result st) (interface_result st)
              (dns_result st) (logon_server_result st) (trace st ++ [e]),
     Ok tt).

Definition outcome {A} (r : State * result A) : result A := snd r.
Definition final {A} (r : State * result A) : State := fst r.

Definition is_CalledProcessError (e : exn) : bool :=
  match e with CalledProcessError _ _ => true | _ => false end.

(** [socket.error] is [OSError]. *)
Definition is_socket_error (e : exn) : bool :=
  match e with OSError => true | _ => false end.

(** Every class of [exn] is a subclass of [Exception]. *)
Definition is_Exception (e : exn) : bool := true.

(** [subprocess.check_output]: the captured text on exit status 0,
    [CalledProcessError] on any other status, [OSError] when the child
    cannot be started. *)
Definition check_output_of (p : proc) : M string :=
  fun st =>
    match p with
    | Exited rc out =>
        if (rc =? 0)%Z then (st, Ok out)
        else (st, Raise (CalledProcessError rc out))
    | NotLaunched => (st, Raise OSError)
    end.

Section Program.

Variable w : World.

(** [subprocess.check_output(command, shell=True, text=True)]. *)
Definition check_output_shell (command : string) : M string :=
  emit (EvShell command) ;;; check_output_of (shell w command).

(** [subprocess.check_output(argv, text=True, stderr=subprocess.STDOUT)]. *)
Definition check_output_argv (argv : list string) : M string :=
  emit (EvExec argv) ;;; check_output_of (exec w argv).

Definition psutil_net_if_addrs : M (list (string * list snicaddr)) :=
  emit EvNetIfAddrs ;;; (fun st => (st, net_if_addrs w)).

Definition socket_gethostbyname (hostname : string) : M string :=
  emit (EvResolve hostname) ;;; (fun st => (st, gethostbyname w hostname)).

(** [platform.system().lower() == 'windows']. *)
Definition on_windows : bool := String.eqb (lower (system w)) "windows".

End Program.

(* ================================================================== *)
(** ** The diagnostic functions *)
(* ================================================================== *)

(** The loop of [get_default_gateway] on Windows: [Some t] when the loop
    returns [t], [None] when it runs to its end.  [parts[-1]] is read
    only under [len(parts) >= 4]. *)
Fixpoint scan_default_gateway (lines : list string) : option string :=
  match lines with
  | [] => None
  | line :: rest =>
      if contains "Default Gateway" line
      then let parts := split line in
           if 4 <=? List.length parts
           then Some (last parts "")
           else scan_default_gateway rest
      else scan_default_gateway rest
  end.

(** The loop of [get_default_gateway] elsewhere.  [parts[2]] is read only
    under [len(parts) >= 3]. *)
Fixpoint scan_default_via (lines : list string) : option string :=
  match lines with
  | [] => None
  | line :: rest =>
      if startswith "default via" line
      then let parts := split line in
           if 3 <=? List.length parts
           then Some (nth 2 parts "")
           else scan_default_via rest
      else scan_default_via rest
  end.

Definition gateway_command (w : World) : string :=
  if on_windows w then "ipconfig" else "ip route".

(** The [try] block returns early with [None] on [CalledProcessError]:
    [r] is [None] for that early return and [Some output] otherwise. *)
Definition get_default_gateway (w : World) : M (option string) :=
  let command := gateway_command w in
  r <- try_except
         (output <- check_output_shell w command ;; ret (Some output))
         is_CalledProcessError
         (ret None) ;;
  match r with
  | None => ret None
  | Some output =>
      if on_windows w
      then ret (scan_default_gateway (splitlines output))
      else ret (scan_default_via (splitlines output))
  end.

(** The inner loop of [get_ip_and_interface], over the addresses of one
    interface. *)
Fixpoint scan_addrs (interface : string) (addrs : list snicaddr)
  : option (string * string) :=
  match addrs with
  | [] => None
  | addr :: rest =>
      if family_eqb (family addr) AF_INET
         && negb (startswith "127." (address addr))
      then Some (address addr, interface)
      else scan_addrs interface rest
  end.

(** The outer loop, over the items of the dictionary in their order. *)
Fixpoint scan_interfaces (items : list (string * list snicaddr))
  : option (string * string) :=
  match items with
  | [] => None
  | (interface, addrs) :: rest =>
      match scan_addrs interface addrs with
      | Some found => Some found
      | None => scan_interfaces rest
      end
  end.

Definition get_ip_and_interface (w : World) : M (string * string) :=
  r <- try_except
         (items <- psutil_net_if_addrs w ;; ret (scan_interfaces items))
         is_Exception
         (ret (Some ("N/A", "N/A"))) ;;
  match r with
  | Some found => ret found
  | None => ret ("N/A", "N/A")
  end.

Definition get_logon_server (w : World) : M string :=
  if on_windows w
  then try_except
         (output <- check_output_shell w "echo %logonserver%" ;;
          ret (strip output))
         is_CalledProcessError
         (ret "N/A")
  else ret "N/A".

Definition ping_command (w : World) (host : string) : list string :=
  let param := if on_windows w then "-n" else "-c" in
  ["ping"; param; "1"; host].

Definition ping (w : World) (host : string) : M string :=
  try_except
    (output <- check_output_argv w (ping_command w host) ;; ret output)
    is_CalledProcessError
    (ret "Ping failed").

Definition dns_query (w : World) (hostname : string) : M string :=
  try_except
    (ip_address <- socket_gethostbyname w hostname ;; ret ip_address)
    is_socket_error
    (ret "DNS resolution failed").

(** [StringVar.set] on each of the five variables. *)
Definition set_gw_result (v : string) : M unit :=
  fun st => (mk_State v (ip_result st) (interface_result st)
                      (dns_result st) (logon_server_result st) (trace st), Ok tt).
Definition set_ip_result (v : string) : M unit :=
  fun st => (mk_State (gw_result st) v (interface_result st)
                      (dns_result st) (logon_server_result st) (trace st), Ok tt).
Definition set_interface_result (v : string) : M unit :=
  fun st => (mk_State (gw_result st) (ip_result st) v
                      (dns_result st) (logon_server_result st) (trace st), Ok tt).
Definition set_dns_result (v : string) : M unit :=
  fun st => (mk_State (gw_result st) (ip_result st) (interface_result st)
                      v (logon_server_result st) (trace st), Ok tt).
Definition set_logon_server_result (v : string) : M unit :=
  fun st => (mk_State (gw_result st) (ip_result st) (interface_result st)
                      (dns_result st) v (trace st), Ok tt).

(** [if gateway:] holds for a non-empty string only. *)
Definition gateway_truthy (gateway : option string) : bool :=
  match gateway with
  | Some g => truthy g
  | None => false
  end.

Definition check_connection (w : World) : M unit :=
  gateway <- get_default_gateway w ;;
  found <- get_ip_and_interface w ;;
  let '(ip_address, interface) := found in
  logon_server <- get_logon_server w ;;
  set_ip_result ("IP: " ++ ip_address) ;;;
  set_interface_result ("Interface: " ++ interface) ;;;
  set_logon_server_result ("Logon Server: " ++ logon_server) ;;;
  (match gateway with
   | Some g =>
       if truthy g
       then ping_result <- ping w g ;;
            set_gw_result ("Gateway (" ++ g ++ "):" ++ nl ++ ping_result)
       else set_gw_result "Gateway not found"
   | None => set_gw_result "Gateway not found"
   end) ;;;
  dns_ip <- dns_query w "google.com" ;;
  set_dns_result ("DNS google.com: " ++ dns_ip).

(* ================================================================== *)
(** ** The probe summariser and the status tests of the GUI class *)
(* ================================================================== *)

(** The Windows loop of [_parse_ping_output]. *)
Fixpoint scan_ping_windows (lines : list string) : option string :=
  match lines with
  | [] => None
  | line :: rest =>
      if contains "Reply from" line || contains "Request timed out" line
      then Some (strip line)
      else if contains "Packets:" line
           then Some (strip line)
           else scan_ping_windows rest
  end.

(** The loop of [_parse_ping_output] on the other platforms. *)
Fixpoint scan_ping_posix (lines : list string) : option string :=
  match lines with
  | [] => None
  | line :: rest =>
      if contains "bytes from" (lower line)
      then Some (strip line)
      else scan_ping_posix rest
  end.

Definition _parse_ping_output (w : World) (ping_output : string) : string :=
  if contains "Ping failed" ping_output
     || contains "timeout" (lower ping_output)
  then ping_output
  else
    let lines := split_on LF ping_output in
    match (if on_windows w
           then scan_ping_windows lines
           else scan_ping_posix lines) with
    | Some summary => summary
    | None => "Success"
    end.

(** The status expressions of [_update_results]. *)
Definition gw_status (gateway : option string) (gateway_ping : string) : string :=
  if gateway_truthy gateway && contains "Reply from" gateway_ping
  then "success"
  else if gateway_truthy gateway then "failure" else "unknown".

Definition internet_status (internet_ping : string) : string :=
  if contains "Reply from" internet_ping || startswith "64 bytes" internet_ping
  then "success"
  else "failure".

(** Worlds used in the examples below. *)
Definition posix_world (route : Z * string) (ping_out : proc) : World :=
  mk_World "Linux"
           (Some (fun command =>
                    if String.eqb command "ip route" then route else (127%Z, "")))
           (fun _ => ping_out)
           (Ok [("lo", [mk_snicaddr AF_INET "127.0.0.1"]);
                ("eth0", [mk_snicaddr AF_LINK "aa:bb:cc:dd:ee:ff";
                          mk_snicaddr AF_INET6 "fe80::1";
                          mk_snicaddr AF_INET "10.0.0.7"])])
           (fun h => if String.eqb h "google.com"
                     then Ok "142.250.1.1" else Raise OSError).

Definition windows_world (ipconfig logon : Z * string) (ping_out : proc) : World :=
  mk_World "Windows"
           (Some (fun command =>
                    if String.eqb command "ipconfig" then ipconfig
                    else if String.eqb command "echo %logonserver%" then logon
                         else (1%Z, "")))
           (fun _ => ping_out)
           (Ok [("Ethernet", [mk_snicaddr AF_INET "192.168.1.20"])])
           (fun _ => Raise OSError).

(** An [ipconfig] block with a gateway line. *)
Definition ipconfig_sample : string :=
  "Ethernet adapter Ethernet:" ++ nl ++
  "   IPv4 Address. . . . . . . . . . . : 192.168.1.20" ++ nl ++
  "   Default Gateway . . . . . . . : 192.168.1.1" ++ nl.

(** The block of an adapter with no gateway configured. *)
Definition ipconfig_no_gateway : string :=
  "Ethernet adapter Ethernet:" ++ nl ++
  "   Default Gateway . . . . . . . :" ++ nl.

Definition ip_route_sample : string :=
  "default via 10.0.0.1 dev eth0" ++ nl ++
  "10.0.0.0/24 dev eth0 proto kernel scope link src 10.0.0.7" ++ nl.

(** What [cmd] prints for [echo %logonserver%] when the variable is not
    set: the text is left unexpanded. *)
Definition logonserver_unset : Z * string := (0%Z, "%logonserver%" ++ nl)%string.

(** A Windows host whose gateway does not answer: [ping] exits with
    status 1 after printing the time-out. *)
Definition timed_out_world : World :=
  windows_world (0%Z, ipconfig_sample) logonserver_unset
                (Exited 1 "Request timed out.").

(** A Windows host on which the ping program cannot be started. *)
Definition no_ping_world : World :=
  windows_world (0%Z, ipconfig_sample) (0%Z, "") NotLaunched.

(** A POSIX host with no default route: [ip route] prints nothing. *)
Definition no_route_world : World := posix_world (0%Z, "") NotLaunched.

(** The display after a check on the host with no default route: the
    gateway field reads "Gateway not found". *)
Definition shown_not_found : State := final (check_connection no_route_world initial).

(** A hostname whose first label has 64 characters, one more than a label
    may have. *)
Definition long_label_host : string :=
  "aaaaaaaaaaaaaaaaaaaaaaaaaaaaaaaaaaaaaaaaaaaaaaaaaaaaaaaaaaaaaaaa.com".

(** A host on which [socket.gethostbyname] is handed that name: the name
    cannot be encoded for the resolver and the call raises
    [UnicodeError], which is no [socket.error]; every other name fails to
    resolve. *)
Definition long_label_world : World :=
  mk_World "Linux" (Some (fun _ => (0%Z, ""))) (fun _ => NotLaunched) (Ok [])
           (fun h => if String.eqb h long_label_host
                     then Raise OtherException else Raise OSError).


(* ================================================================== *)
(** ** Definitions used to state the properties *)
(* ================================================================== *)

(** All characters of a string are white space. *)
Fixpoint blank (s : string) : bool :=
  match s with
  | EmptyString => true
  | String c s' => isspace c && blank s'
  end.

(** No character of a string is white space. *)
Fixpoint spaceless (s : string) : bool :=
  match s with
  | EmptyString => true
  | String c s' => negb (isspace c) && spaceless s'
  end.

(** The five fields of the display, without the trace. *)
Definition shown_fields (st : State) : string * string * string * string * string :=
  (ip_result st, interface_result st, logon_server_result st,
   gw_result st, dns_result st).

(** The state after some more events. *)
Definition logged (st : State) (evs : list event) : State :=
  mk_State (gw_result st) (ip_result st) (interface_result st)
           (dns_result st) (logon_server_result st) (trace st ++ evs).

(** The text scan of [get_default_gateway], on either platform. *)
Definition parse_gateway (w : World) (output : string) : option string :=
  if on_windows w
  then scan_default_gateway (splitlines output)
  else scan_default_via (splitlines output).

Definition gateway_outcome (w : World) : result (option string) :=
  match shell w (gateway_command w) with
  | Exited rc out => if (rc =? 0)%Z then Ok (parse_gateway w out) else Ok None
  | NotLaunched => Raise OSError
  end.

Definition interface_outcome (w : World) : string * string :=
  match net_if_addrs w with
  | Ok items =>
      match scan_interfaces items with
      | Some found => found
      | None => ("N/A", "N/A")
      end
  | Raise _ => ("N/A", "N/A")
  end.

Definition logon_events (w : World) : list event :=
  if on_windows w then [EvShell "echo %logonserver%"] else [].

Definition logon_outcome (w : World) : result string :=
  if on_windows w
  then match shell w "echo %logonserver%" with
       | Exited rc out => if (rc =? 0)%Z then Ok (strip out) else Ok "N/A"
       | NotLaunched => Raise OSError
       end
  else Ok "N/A".

Definition ping_outcome (w : World) (host : string) : result string :=
  match exec w (ping_command w host) with
  | Exited rc out => if (rc =? 0)%Z then Ok out else Ok "Ping failed"
  | NotLaunched => Raise OSError
  end.

Definition dns_outcome (w : World) (hostname : string) : result string :=
  match gethostbyname w hostname with
  | Ok a => Ok a
  | Raise e => if is_socket_error e then Ok "DNS resolution failed" else Raise e
  end.

Ltac run_unfold :=
  unfold check_output_shell, check_output_argv, psutil_net_if_addrs,
    socket_gethostbyname;
  unfold bind, try_except, ret, emit, check_output_of, logged;
  cbn [fst snd].

(** A matching line, in the words of the specification: on Windows it
    contains the label and has at least 4 tokens; elsewhere it begins with
    "default via" and has at least 3 tokens. *)
Definition gateway_line_matches (windows : bool) (line : string) : bool :=
  if windows
  then contains "Default Gateway" line && (4 <=? List.length (split line))
  else startswith "default via" line && (3 <=? List.length (split line)).

(** The token taken from a matching line: the last one on Windows, the
    third one elsewhere. *)
Definition gateway_token (windows : bool) (line : string) : string :=
  if windows then last (split line) "" else nth 2 (split line) "".

(** An address the enumerator accepts: of the IPv4 family, and its text
    does not begin with "127.". *)
Definition usable (addr : snicaddr) : bool :=
  family_eqb (family addr) AF_INET && negb (startswith "127." (address addr)).

(** All accepted (address, interface) pairs, in enumeration order:
    interfaces in the order of the dictionary, the addresses of one
    interface in their order. *)
Definition candidates (items : list (string * list snicaddr))
  : list (string * string) :=
  flat_map (fun item => map (fun addr => (address addr, fst item))
                            (filter usable (snd item)))
           items.

(** The text of an IPv4 address, from its four octets. *)
Definition decimal (n : nat) : string := NilZero.string_of_uint (Nat.to_uint n).

Definition dotted_quad (a b c d : nat) : string :=
  decimal a ++ "." ++ decimal b ++ "." ++ decimal c ++ "." ++ decimal d.


(** The lines at which the loops of the summariser return. *)
Definition windows_marker (line : string) : bool :=
  contains "Reply from" line || contains "Request timed out" line
  || contains "Packets:" line.

Definition posix_marker (line : string) : bool :=
  contains "bytes from" (lower line).

Definition marker (w : World) (line : string) : bool :=
  if on_windows w then windows_marker line else posix_marker line.


(** The last step: the lookup of google.com and the write of its result. *)
Definition dns_step (w : World) (st : State) : State * result unit :=
  match dns_outcome w "google.com" with
  | Ok dns_ip =>
      (mk_State (gw_result st) (ip_result st) (interface_result st)
                ("DNS google.com: " ++ dns_ip) (logon_server_result st)
                (trace st ++ [EvResolve "google.com"]), Ok tt)
  | Raise e => (logged st [EvResolve "google.com"], Raise e)
  end.

(** The events of the three resolvers, in the order of the calls. *)
Definition resolver_events (w : World) : list event :=
  [EvShell (gateway_command w); EvNetIfAddrs] ++ logon_events w.

Ltac state_norm :=
  unfold logged;
  cbn [gw_result ip_result interface_result dns_result logon_server_result
       trace];
  rewrite <- ?app_assoc, ?app_nil_r; cbn [app].

(** What POSIX [ping] prints for one answered request. *)
Definition posix_reply_sample : string :=
  "PING 10.0.0.1 (10.0.0.1) 56(84) bytes of data." ++ nl ++
  "64 bytes from 10.0.0.1: icmp_seq=1 ttl=64 time=0.41 ms" ++ nl ++
  "1 packets transmitted, 1 received, 0% packet loss" ++ nl.

(* ================================================================== *)
(** ** The GUI class *)
(* ================================================================== *)

Module NetworkCheckerGUI.

(** Modelled from the spec: the report that [run_all_checks] returns (the
    checker class is not among the sources): the keys that
    [_update_results] reads, with text values, a gateway that may be
    [None], an ordered mapping for the DNS results, and a key
    'internet_ping' that may be missing. *)
Record Report : Type := mk_Report {
  ip : string;
  interface : string;
  logon_server : string;
  gateway : option string;
  gateway_ping : string;
  internet_ping : option string;
  dns_results : list (string * string)
}.

(** What [run_all_checks] comes to: a report, or an exception [e] of which
    the GUI uses [str(e)] only. *)
Inductive checks : Type :=
| Returned (results : Report)
| Raised (message : string).

Inductive level : Type := DEBUG | INFO | WARNING | ERROR.

(** A font: family, size and styles. *)
Definition font : Type := (string * Z * list string)%type.

(** The items that the class puts on its canvas. *)
Inductive item : Type :=
| Line (x1 y1 x2 y2 : Z) (fill : string) (width : Z)
       (arrow : string) (arrowshape : Z * Z * Z)
| Oval (x1 y1 x2 y2 : Z) (fill outline : string) (width : Z)
| Text (x y : Z) (text fill : string) (f : font).

(** A call handed to [root.after(0, ...)]. *)
Inductive callback : Type :=
| Cb_update_results (results : Report)
| Cb_show_error (error_msg : string)
| Cb_check_complete.

(** The attributes of the object that its methods read or write: the five
    [StringVar]s, the status label (text, colour), the check button
    (state, text), the state of the reset button, the items of the
    canvas, the flag, the number of threads started, the calls waiting in
    the main loop, the error dialogs shown and the log records. *)
Record Widgets : Type := mk_Widgets {
  ip_result : string;
  interface_result : string;
  logon_server_result : string;
  gw_result : string;
  dns_result : string;
  status_label : string * string;
  check_button : string * string;
  reset_button : string;
  canvas : list item;
  is_checking : bool;
  threads_started : nat;
  after_queue : list callback;
  dialogs : list (string * string);
  log : list (level * string)
}.

Definition set_ip_result (v : string) (s : Widgets) : Widgets :=
  mk_Widgets v (interface_result s) (logon_server_result s) (gw_result s)
             (dns_result s) (status_label s) (check_button s) (reset_button s)
             (canvas s) (is_checking s) (threads_started s) (after_queue s)
             (dialogs s) (log s).
Definition set_interface_result (v : string) (s : Widgets) : Widgets :=
  mk_Widgets (ip_result s) v (logon_server_result s) (gw_result s)
             (dns_result s) (status_label s) (check_button s) (reset_button s)
             (canvas s) (is_checking s) (threads_started s) (after_queue s)
             (dialogs s) (log s).
Definition set_logon_server_result (v : string) (s : Widgets) : Widgets :=
  mk_Widgets (ip_result s) (interface_result s) v (gw_result s)
             (dns_result s) (status_label s) (check_button s) (reset_button s)
             (canvas s) (is_checking s) (threads_started s) (after_queue s)
             (dialogs s) (log s).
Definition set_gw_result (v : string) (s : Widgets) : Widgets :=
  mk_Widgets (ip_result s) (interface_result s) (logon_server_result s) v
             (dns_result s) (status_label s) (check_button s) (reset_button s)
             (canvas s) (is_checking s) (threads_started s) (after_queue s)
             (dialogs s) (log s).
Definition set_dns_result (v : string) (s : Widgets) : Widgets :=
  mk_Widgets (ip_result s) (interface_result s) (logon_server_result s)
             (gw_result s) v (status_label s) (check_button s) (reset_button s)
             (canvas s) (is_checking s) (threads_started s) (after_queue s)
             (dialogs s) (log s).
(** [status_label.configure(text=..., text_color=...)]. *)
Definition configure_status (text color : string) (s : Widgets) : Widgets :=
  mk_Widgets (ip_result s) (interface_result s) (logon_server_result s)
             (gw_result s) (dns_result s) (text, color) (check_button s)
             (reset_button s) (canvas s) (is_checking s) (threads_started s)
             (after_queue s) (dialogs s) (log s).
(** [check_button.configure(state=..., text=...)]. *)
Definition configure_check_button (state text : string) (s : Widgets) : Widgets :=
  mk_Widgets (ip_result s) (interface_result s) (logon_server_result s)
             (gw_result s) (dns_result s) (status_label s) (state, text)
             (reset_button s) (canvas s) (is_checking s) (threads_started s)
             (after_queue s) (dialogs s) (log s).
(** [reset_button.configure(state=...)]. *)
Definition configure_reset_button (state : string) (s : Widgets) : Widgets :=
  mk_Widgets (ip_result s) (interface_result s) (logon_server_result s)
             (gw_result s) (dns_result s) (status_label s) (check_button s)
             state (canvas s) (is_checking s) (threads_started s)
             (after_queue s) (dialogs s) (log s).
Definition set_canvas (items : list item) (s : Widgets) : Widgets :=
  mk_Widgets (ip_result s) (interface_result s) (logon_server_result s)
             (gw_result s) (dns_result s) (status_label s) (check_button s)
             (reset_button s) items (is_checking s) (threads_started s)
             (after_queue s) (dialogs s) (log s).
Definition set_is_checking (b : bool) (s : Widgets) : Widgets :=
  mk_Widgets (ip_result s) (interface_result s) (logon_server_result s)
             (gw_result s) (dns_result s) (status_label s) (check_button s)
             (reset_button s) (canvas s) b (threads_started s)
             (after_queue s) (dialogs s) (log s).
(** [threading.Thread(target=self._run_check, daemon=True).start()]. *)
Definition start_thread (s : Widgets) : Widgets :=
  mk_Widgets (ip_result s) (interface_result s) (logon_server_result s)
             (gw_result s) (dns_result s) (status_label s) (check_button s)
             (reset_button s) (canvas s) (is_checking s) (S (threads_started s))
             (after_queue s) (dialogs s) (log s).
Definition set_after_queue (q : list callback) (s : Widgets) : Widgets :=
  mk_Widgets (ip_result s) (interface_result s) (logon_server_result s)
             (gw_result s) (dns_result s) (status_label s) (check_button s)
             (reset_button s) (canvas s) (is_checking s) (threads_started s)
             q (dialogs s) (log s).
(** [root.after(0, cb)]: the call waits behind those already waiting. *)
Definition root_after (cb : callback) (s : Widgets) : Widgets :=
  set_after_queue (after_queue s ++ [cb]) s.
(** [messagebox.showerror(title, message)]. *)
Definition showerror (title message : string) (s : Widgets) : Widgets :=
  mk_Widgets (ip_result s) (interface_result s) (logon_server_result s)
             (gw_result s) (dns_result s) (status_label s) (check_button s)
             (reset_button s) (canvas s) (is_checking s) (threads_started s)
             (after_queue s) (dialogs s ++ [(title, message)]) (log s).
(** [self.logger.debug], [.info], [.warning], [.error]. *)
Definition logger (lv : level) (message : string) (s : Widgets) : Widgets :=
  mk_Widgets (ip_result s) (interface_result s) (logon_server_result s)
             (gw_result s) (dns_result s) (status_label s) (check_button s)
             (reset_button s) (canvas s) (is_checking s) (threads_started s)
             (after_queue s) (dialogs s) (log s ++ [(lv, message)]).
(** [canvas.create_line], [create_oval], [create_text]: one more item. *)
Definition create (it : item) (s : Widgets) : Widgets :=
  set_canvas (canvas s ++ [it]) s.

(** The marks and the arrow of the texts, which lie outside the code
    points 0..255, by their UTF-8 bytes: U+2713, U+2717, U+25CB, U+2192.
    None of these bytes is white space or a line boundary. *)
Definition check_mark : string :=
  String "226" (String "156" (String "147" "")).
Definition ballot_x : string :=
  String "226" (String "156" (String "151" "")).
Definition white_circle : string :=
  String "226" (String "151" (String "139" "")).
Definition arrow_right : string :=
  String "226" (String "134" (String "146" "")).

(** [d.get(k, default)] on a dictionary of texts. *)
Fixpoint dict_get (d : list (string * string)) (k default : string) : string :=
  match d with
  | [] => default
  | (k', v) :: d' => if String.eqb k k' then v else dict_get d' k default
  end.

Definition status_map : list (string * string) :=
  [("success", check_mark ++ " Connected");
   ("failure", ballot_x ++ " Failed");
   ("unknown", white_circle ++ " Unknown")]%string.

Definition _get_status_text (status : string) : string :=
  dict_get status_map status (white_circle ++ " Unknown").

Definition colors : list (string * string) :=
  [("success", "#4ade80"); ("failure", "#f87171"); ("unknown", "#6b7280")].

Definition _draw_node (x y : Z) (label color : string) (s : Widgets) : Widgets :=
  let s := create (Oval (x - 60) (y - 25) (x + 60) (y + 25) color "white" 2) s in
  create (Text x y label "white" ("Arial", 10%Z, ["bold"])) s.

Definition _draw_status_indicator (x y : Z) (status_text color : string)
           (s : Widgets) : Widgets :=
  create (Text x y status_text color ("Arial", 8%Z, [])) s.

(** [colors["unknown"]] is a key of the literal; the default of the
    lookup below is never used. *)
Definition _draw_topology_map (gw_status internet_status dc_status : string)
           (s : Widgets) : Widgets :=
  let s := set_canvas [] s in
  let unknown_color := dict_get colors "unknown" "" in
  let '(host_x, host_y) := (100, 100)%Z in
  let '(gw_x, gw_y) := (325, 100)%Z in
  let '(internet_x, internet_y) := (550, 50)%Z in
  let '(dc_x, dc_y) := (550, 150)%Z in
  let gw_color := dict_get colors gw_status unknown_color in
  let s := create (Line (host_x + 60) host_y (gw_x - 60) gw_y
                        gw_color 3 "last" (10, 12, 5)%Z) s in
  let internet_color := dict_get colors internet_status unknown_color in
  let s := create (Line (gw_x + 60) (gw_y - 20) (internet_x - 60) (internet_y + 20)
                        internet_color 3 "last" (10, 12, 5)%Z) s in
  let dc_color := dict_get colors dc_status unknown_color in
  let s := create (Line (gw_x + 60) (gw_y + 20) (dc_x - 60) (dc_y - 20)
                        dc_color 3 "last" (10, 12, 5)%Z) s in
  let s := _draw_node host_x host_y "Host" "#3b82f6" s in
  let s := _draw_node gw_x gw_y "Gateway" "#8b5cf6" s in
  let s := _draw_node internet_x internet_y "Internet" internet_color s in
  let s := _draw_node dc_x dc_y ("Domain" ++ nl ++ "Controller") dc_color s in
  let s := _draw_status_indicator host_x (host_y + 40) "Active" "#4ade80" s in
  let s := _draw_status_indicator gw_x (gw_y + 40)
                                  (_get_status_text gw_status) gw_color s in
  let s := _draw_status_indicator internet_x (internet_y + 40)
                                  (_get_status_text internet_status)
                                  internet_color s in
  _draw_status_indicator dc_x (dc_y + 40) (_get_status_text dc_status) dc_color s.

Definition reset_app (s : Widgets) : Widgets :=
  let s := logger DEBUG "Resetting display" s in
  let s := set_ip_result "" s in
  let s := set_interface_result "" s in
  let s := set_logon_server_result "" s in
  let s := set_gw_result "" s in
  let s := set_dns_result "" s in
  let s := configure_status "Ready" "gray" s in
  _draw_topology_map "unknown" "unknown" "unknown" s.

Definition _check_complete (s : Widgets) : Widgets :=
  let s := set_is_checking false s in
  let s := configure_check_button "normal" "Check Connection" s in
  configure_reset_button "normal" s.

Definition _show_error (error_msg : string) (s : Widgets) : Widgets :=
  let s := configure_status ("Error: " ++ error_msg) "red" s in
  showerror "Network Check Error" error_msg s.

(** The text of the DNS field before it is trimmed: the header and one
    line for each item of the mapping, in its order. *)
Fixpoint dns_lines (items : list (string * string)) (text : string) : string :=
  match items with
  | [] => text
  | (server, result) :: rest =>
      dns_lines rest
                (text ++ "  " ++ server ++ " " ++ arrow_right ++ " " ++ result ++ nl)
  end.

(** The third status expression of [_update_results]. *)
Definition dc_status (logon_server : string) : string :=
  if truthy logon_server && negb (String.eqb logon_server "Not available")
  then "success"
  else "failure".

(** On a report of the shape above no statement of the [try] block can
    raise, so the handler of [_update_results] is never entered. *)
Definition _update_results (w : World) (results : Report) (s : Widgets) : Widgets :=
  let s := set_ip_result ("IP Address: " ++ ip results) s in
  let s := set_interface_result ("Network Interface: " ++ interface results) s in
  let s := set_logon_server_result ("Logon Server: " ++ logon_server results) s in
  let gateway_ping' := gateway_ping results in
  let s :=
    match gateway results with
    | Some g =>
        if truthy g
        then let ping_summary := _parse_ping_output w gateway_ping' in
             set_gw_result ("Gateway: " ++ g ++ nl ++ "Ping Result: " ++ ping_summary) s
        else set_gw_result "Gateway: Not found" s
    | None => set_gw_result "Gateway: Not found" s
    end in
  let dns_results_text := dns_lines (dns_results results) ("DNS Resolution:" ++ nl) in
  let s := set_dns_result (strip dns_results_text) s in
  let gw_status' := gw_status (gateway results) gateway_ping' in
  let internet_ping' :=
    match internet_ping results with
    | Some text => text
    | None => "Not checked"
    end in
  let internet_status' := internet_status internet_ping' in
  let dc_status' := dc_status (logon_server results) in
  let s := _draw_topology_map gw_status' internet_status' dc_status' s in
  let s := configure_status "Check completed successfully" "green" s in
  logger INFO "Results updated in GUI" s.

Definition start_check (s : Widgets) : Widgets :=
  if is_checking s
  then logger WARNING "Check already in progress" s
  else
    let s := logger INFO "Starting network check" s in
    let s := set_is_checking true s in
    let s := configure_check_button "disabled" "Checking..." s in
    let s := configure_reset_button "disabled" s in
    let s := configure_status "Running diagnostics..." "yellow" s in
    let s := reset_app s in
    start_thread s.

(** The body of the worker thread; [run_all_checks] is what the call of
    the checker comes to.  The [finally] clause runs on both paths. *)
Definition _run_check (run_all_checks : checks) (s : Widgets) : Widgets :=
  let s :=
    match run_all_checks with
    | Returned results => root_after (Cb_update_results results) s
    | Raised message =>
        let s := logger ERROR ("Error during network check: " ++ message) s in
        let error_msg := ("Error: " ++ message)%string in
        root_after (Cb_show_error error_msg) s
    end in
  root_after Cb_check_complete s.

(** One waiting call, run by the main loop. *)
Definition run_callback (w : World) (cb : callback) (s : Widgets) : Widgets :=
  match cb with
  | Cb_update_results results => _update_results w results s
  | Cb_show_error error_msg => _show_error error_msg s
  | Cb_check_complete => _check_complete s
  end.

(** The main loop runs the waiting calls in the order in which they were
    handed over; none of them hands over another. *)
Definition run_pending (w : World) (s : Widgets) : Widgets :=
  fold_left (fun s cb => run_callback w cb s) (after_queue s)
            (set_after_queue [] s).

(** The object when [__init__] returns: the flag is off, nothing waits,
    the five variables are empty, the label reads "Ready", the buttons
    are enabled and the map is drawn with every status unknown. *)
Definition after_init : Widgets :=
  _draw_topology_map "unknown" "unknown" "unknown"
    (mk_Widgets "" "" "" "" "" ("Ready", "gray") ("normal", "Check Connection")
                "normal" [] false 0 [] []
                [(INFO, "Network Checker GUI starting")]).

(** What the window shows: the five fields, the status label and the map. *)
Definition display (s : Widgets)
  : string * string * string * string * string * (string * string) * list item :=
  (ip_result s, interface_result s, logon_server_result s, gw_result s,
   dns_result s, status_label s, canvas s).

(** A status that the map knows. *)
Definition known_status (status : string) : bool :=
  String.eqb status "success" || String.eqb status "failure"
  || String.eqb status "unknown".

(** A report and its texts, for the examples. *)
Definition sample_report : Report :=
  mk_Report "10.0.0.7" "eth0" "N/A" (Some "10.0.0.1") posix_reply_sample None
            [("google.com", "142.250.1.1"); ("intranet", "DNS resolution failed")].

(** Every coordinate of an item lies on a canvas of the given size. *)
Definition on_canvas (width height : Z) (it : item) : bool :=
  let inside x y :=
    ((0 <=? x) && (x <=? width) && (0 <=? y) && (y <=? height))%Z in
  match it with
  | Line x1 y1 x2 y2 _ _ _ _ => inside x1 y1 && inside x2 y2
  | Oval x1 y1 x2 y2 _ _ _ => inside x1 y1 && inside x2 y2
  | Text x y _ _ _ => inside x y
  end.

(** The call that the worker hands over first. *)
Definition first_callback (run_all_checks : checks) : callback :=
  match run_all_checks with
  | Returned results => Cb_update_results results
  | Raised message => Cb_show_error ("Error: " ++ message)
  end.

(** The report with another text for its gateway probe. *)
Definition with_gateway_ping (text : string) (results : Report) : Report :=
  mk_Report (ip results) (interface results) (logon_server results)
            (gateway results) text (internet_ping results) (dns_results results).

(** One line of the DNS field, without its line feed, and the lines of a
    mapping, each with its line feed. *)
Definition dns_line (server result : string) : string :=
  "  " ++ server ++ " " ++ arrow_right ++ " " ++ result.

Fixpoint dns_block (items : list (string * string)) : string :=
  match items with
  | [] => ""
  | (server, result) :: rest => dns_line server result ++ nl ++ dns_block rest
  end.

End NetworkCheckerGUI.

(* ================================================================== *)
(** ** Facts about the string methods *)
(* ================================================================== *)

Section StringFacts.

Lemma split_from_tokens_nonempty (s cur : string) :
  Forall (fun t => is_empty t = false) (split_from s cur).
Proof.
  revert cur; induction s as [|c s IH]; intros cur; simpl.
  - destruct (is_empty cur) eqn:E; auto.
  - destruct (isspace c); [destruct (is_empty cur) eqn:E|]; auto.
Qed.

Lemma split_tokens_nonempty (s t : string) :
  In t (split s) -> t <> "".
Proof.
  intros Hin.
  pose proof (split_from_tokens_nonempty s "") as HF.
  rewrite Forall_forall in HF.
  specialize (HF t Hin).
  intros ->; discriminate.
Qed.

Lemma last_in_list {A} (l : list A) (d : A) :
  l <> [] -> In (last l d) l.
Proof.
  induction l as [|a [|b l] IH]; intros Hne.
  - congruence.
  - now left.
  - right. apply IH. discriminate.
Qed.



Lemma split_from_blank (s : string) :
  blank s = true -> split_from s "" = [].
Proof.
  induction s as [|c s IH]; simpl; [reflexivity|].
  rewrite andb_true_iff; intros [Hc Hs]; rewrite Hc; auto.
Qed.

Lemma split_from_blank_cur (s cur : string) :
  blank s = true -> is_empty cur = false -> split_from s cur = [cur].
Proof.
  destruct s as [|c s]; simpl; intros Hb Hc; rewrite Hc; [reflexivity|].
  apply andb_true_iff in Hb as [H1 H2].
  rewrite H1, split_from_blank; auto.
Qed.

(** A line that ends in a separate colon, white space apart, has the
    colon as its last token. *)
Lemma split_from_trailing_colon (body trail cur : string) :
  blank trail = true ->
  split_from (body ++ " :" ++ trail) cur = split_from body cur ++ [":"].
Proof.
  intros Hb; revert cur; induction body as [|c body IH]; intros cur.
  - cbn [append split_from].
    change (isspace " ") with true. change (isspace ":") with false.
    cbn iota.
    change (snoc "" ":") with ":".
    rewrite (split_from_blank_cur trail ":" Hb eq_refl).
    destruct (is_empty cur); reflexivity.
  - cbn [append split_from].
    destruct (isspace c); [destruct (is_empty cur)|]; cbn [app];
      rewrite ?IH; reflexivity.
Qed.

Lemma last_snoc {A} (l : list A) (x d : A) : last (l ++ [x]) d = x.
Proof.
  induction l as [|a l IH]; [reflexivity|].
  cbn [app]. destruct (l ++ [x]) eqn:E.
  - destruct l; discriminate.
  - rewrite <- E. cbn [last]. rewrite E in *. exact IH.
Qed.

Lemma split_trailing_colon (body trail : string) :
  blank trail = true ->
  last (split (body ++ " :" ++ trail)) "" = ":".
Proof.
  intros Hb. unfold split.
  rewrite split_from_trailing_colon by assumption.
  apply last_snoc.
Qed.

End StringFacts.

(* ================================================================== *)
(** ** What one run of each function does *)
(* ================================================================== *)

Lemma get_default_gateway_run (w : World) (st : State) :
  get_default_gateway w st
  = (logged st [EvShell (gateway_command w)], gateway_outcome w).
Proof.
  unfold get_default_gateway, gateway_outcome, parse_gateway. run_unfold.
  destruct (shell w (gateway_command w)) as [rc out|]; [|reflexivity].
  destruct (rc =? 0)%Z; [|reflexivity].
  cbn. destruct (on_windows w); reflexivity.
Qed.

Lemma get_ip_and_interface_run (w : World) (st : State) :
  get_ip_and_interface w st
  = (logged st [EvNetIfAddrs], Ok (interface_outcome w)).
Proof.
  unfold get_ip_and_interface, interface_outcome. run_unfold.
  destruct (net_if_addrs w) as [items|e]; [|reflexivity].
  cbn. destruct (scan_interfaces items); reflexivity.
Qed.

Lemma logged_nil (st : State) : logged st [] = st.
Proof. unfold logged; rewrite app_nil_r; destruct st; reflexivity. Qed.

Lemma logged_logged (st : State) (a b : list event) :
  logged (logged st a) b = logged st (a ++ b).
Proof. unfold logged; cbn; now rewrite app_assoc. Qed.

Lemma get_logon_server_run (w : World) (st : State) :
  get_logon_server w st = (logged st (logon_events w), logon_outcome w).
Proof.
  unfold get_logon_server, logon_outcome, logon_events.
  destruct (on_windows w).
  - run_unfold.
    destruct (shell w "echo %logonserver%") as [rc out|]; [|reflexivity].
    destruct (rc =? 0)%Z; reflexivity.
  - unfold ret; now rewrite logged_nil.
Qed.

Lemma ping_run (w : World) (host : string) (st : State) :
  ping w host st = (logged st [EvExec (ping_command w host)], ping_outcome w host).
Proof.
  unfold ping, ping_outcome. run_unfold.
  destruct (exec w (ping_command w host)) as [rc out|]; [|reflexivity].
  destruct (rc =? 0)%Z; reflexivity.
Qed.

Lemma dns_query_run (w : World) (hostname : string) (st : State) :
  dns_query w hostname st
  = (logged st [EvResolve hostname], dns_outcome w hostname).
Proof.
  unfold dns_query, dns_outcome. run_unfold.
  destruct (gethostbyname w hostname) as [a|e]; [reflexivity|].
  destruct (is_socket_error e); reflexivity.
Qed.

(* ================================================================== *)
(** ** The gateway resolver *)
(* ================================================================== *)

Lemma scan_default_gateway_first (pre post : list string) (line : string) :
  Forall (fun l => gateway_line_matches true l = false) pre ->
  gateway_line_matches true line = true ->
  scan_default_gateway (pre ++ line :: post) = Some (gateway_token true line).
Proof.
  unfold gateway_line_matches, gateway_token.
  induction 1 as [|l pre Hl _ IH]; intros Hm; cbn [app scan_default_gateway].
  - apply andb_true_iff in Hm as [-> ->]; reflexivity.
  - apply andb_false_iff in Hl as [-> | Hl]; [auto|].
    rewrite Hl. destruct (contains "Default Gateway" l); auto.
Qed.

Lemma scan_default_gateway_none (lines : list string) :
  Forall (fun l => gateway_line_matches true l = false) lines ->
  scan_default_gateway lines = None.
Proof.
  unfold gateway_line_matches.
  induction 1 as [|l lines Hl _ IH]; cbn [scan_default_gateway]; [reflexivity|].
  apply andb_false_iff in Hl as [-> | Hl]; [auto|].
  rewrite Hl. destruct (contains "Default Gateway" l); auto.
Qed.

Lemma scan_default_via_first (pre post : list string) (line : string) :
  Forall (fun l => gateway_line_matches false l = false) pre ->
  gateway_line_matches false line = true ->
  scan_default_via (pre ++ line :: post) = Some (gateway_token false line).
Proof.
  unfold gateway_line_matches, gateway_token.
  induction 1 as [|l pre Hl _ IH]; intros Hm; cbn [app scan_default_via].
  - apply andb_true_iff in Hm as [-> ->]; reflexivity.
  - apply andb_false_iff in Hl as [-> | Hl]; [auto|].
    rewrite Hl. destruct (startswith "default via" l); auto.
Qed.

Lemma scan_default_via_none (lines : list string) :
  Forall (fun l => gateway_line_matches false l = false) lines ->
  scan_default_via lines = None.
Proof.
  unfold gateway_line_matches.
  induction 1 as [|l lines Hl _ IH]; cbn [scan_default_via]; [reflexivity|].
  apply andb_false_iff in Hl as [-> | Hl]; [auto|].
  rewrite Hl. destruct (startswith "default via" l); auto.
Qed.

Lemma parse_gateway_first (w : World) (output : string)
      (pre post : list string) (line : string) :
  splitlines output = pre ++ line :: post ->
  Forall (fun l => gateway_line_matches (on_windows w) l = false) pre ->
  gateway_line_matches (on_windows w) line = true ->
  parse_gateway w output = Some (gateway_token (on_windows w) line).
Proof.
  unfold parse_gateway; intros -> Hpre Hline.
  destruct (on_windows w);
    [apply scan_default_gateway_first | apply scan_default_via_first]; auto.
Qed.

Lemma parse_gateway_none (w : World) (output : string) :
  Forall (fun l => gateway_line_matches (on_windows w) l = false)
         (splitlines output) ->
  parse_gateway w output = None.
Proof.
  unfold parse_gateway; intros H.
  destruct (on_windows w);
    [apply scan_default_gateway_none | apply scan_default_via_none]; auto.
Qed.

Lemma gateway_outcome_exit0 (w : World) (output : string) :
  shell w (gateway_command w) = Exited 0 output ->
  gateway_outcome w = Ok (parse_gateway w output).
Proof. unfold gateway_outcome; intros ->; reflexivity. Qed.

(** A gateway that the resolver returns is a token of a line: it is never
    the empty string. *)
Lemma scan_default_gateway_nonempty (lines : list string) (g : string) :
  scan_default_gateway lines = Some g -> g <> "".
Proof.
  induction lines as [|l lines IH]; cbn [scan_default_gateway]; [discriminate|].
  destruct (contains "Default Gateway" l); [|exact IH].
  destruct (4 <=? List.length (split l)) eqn:E; [|exact IH].
  intros [= <-]. apply (split_tokens_nonempty l), last_in_list.
  destruct (split l); [discriminate|discriminate].
Qed.

Lemma scan_default_via_nonempty (lines : list string) (g : string) :
  scan_default_via lines = Some g -> g <> "".
Proof.
  induction lines as [|l lines IH]; cbn [scan_default_via]; [discriminate|].
  destruct (startswith "default via" l); [|exact IH].
  destruct (3 <=? List.length (split l)) eqn:E; [|exact IH].
  intros [= <-]. apply (split_tokens_nonempty l), nth_In.
  apply Nat.leb_le in E; lia.
Qed.

Lemma gateway_outcome_nonempty (w : World) (g : string) :
  gateway_outcome w = Ok (Some g) -> truthy g = true.
Proof.
  unfold gateway_outcome, parse_gateway.
  destruct (shell w (gateway_command w)) as [rc out|]; [|discriminate].
  destruct (rc =? 0)%Z; [|discriminate].
  intros [= H].
  assert (g <> "") as Hne
    by (destruct (on_windows w);
        eauto using scan_default_gateway_nonempty, scan_default_via_nonempty).
  destruct g; [congruence|reflexivity].
Qed.

(** C1.  Whenever the routing command exits with status 0 and prints
    [output], [get_default_gateway] returns the token of the first
    matching line of [output] and looks at no later line: the last token
    of the first line that contains "Default Gateway" and has at least 4
    tokens on Windows, the third token of the first line that begins with
    "default via" and has at least 3 tokens elsewhere; it returns [None]
    when [output] has no matching line.  In particular the line
    "   Default Gateway . . . . . . . : 192.168.1.1" yields "192.168.1.1"
    and the line "default via 10.0.0.1 dev eth0" yields "10.0.0.1". *)
Theorem get_default_gateway_first_matching_line :
  forall (w : World) (st : State) (output : string),
    shell w (gateway_command w) = Exited 0 output ->
    let windows := on_windows w in
    let no_match := fun l => gateway_line_matches windows l = false in
    let returned := outcome (get_default_gateway w st) in
    (forall pre line post,
        splitlines output = pre ++ line :: post ->
        Forall no_match pre ->
        gateway_line_matches windows line = true ->
        returned = Ok (Some (gateway_token windows line)))
    /\ (Forall no_match (splitlines output) -> returned = Ok None)
    /\ (windows = true ->
        forall pre post,
          splitlines output
          = pre ++ "   Default Gateway . . . . . . . : 192.168.1.1" :: post ->
          Forall no_match pre ->
          returned = Ok (Some "192.168.1.1"))
    /\ (windows = false ->
        forall pre post,
          splitlines output = pre ++ "default via 10.0.0.1 dev eth0" :: post ->
          Forall no_match pre ->
          returned = Ok (Some "10.0.0.1")).
Proof.
  intros w st output Hrun windows no_match returned.
  assert (returned = Ok (parse_gateway w output)) as Hret.
  { unfold returned, outcome. rewrite get_default_gateway_run. cbn [snd].
    now apply gateway_outcome_exit0. }
  rewrite Hret. subst windows no_match.
  split; [|split; [|split]].
  - intros pre line post Hsplit Hpre Hline. f_equal.
    eapply parse_gateway_first; eauto.
  - intros Hnone. f_equal. now apply parse_gateway_none.
  - intros Hw pre post Hsplit Hpre. f_equal.
    rewrite (parse_gateway_first w output pre post _ Hsplit Hpre);
      rewrite Hw; reflexivity.
  - intros Hw pre post Hsplit Hpre. f_equal.
    rewrite (parse_gateway_first w output pre post _ Hsplit Hpre);
      rewrite Hw; reflexivity.
Qed.

Lemma get_default_gateway_first_matching_line_witness :
  outcome (get_default_gateway
             (windows_world (0%Z, ipconfig_sample) (0%Z, "") NotLaunched) initial)
  = Ok (Some "192.168.1.1")
  /\ outcome (get_default_gateway
                (posix_world (0%Z, ip_route_sample) NotLaunched) initial)
     = Ok (Some "10.0.0.1")
  /\ outcome (get_default_gateway (posix_world (0%Z, "") NotLaunched) initial)
     = Ok None.
Proof.
  split; [|split].
  - refine (proj1 (proj2 (proj2
      (get_default_gateway_first_matching_line
         (windows_world (0%Z, ipconfig_sample) (0%Z, "") NotLaunched)
         initial ipconfig_sample eq_refl))) eq_refl
      ["Ethernet adapter Ethernet:";
       "   IPv4 Address. . . . . . . . . . . : 192.168.1.20"] [] eq_refl _).
    repeat constructor.
  - refine (proj2 (proj2 (proj2
      (get_default_gateway_first_matching_line
         (posix_world (0%Z, ip_route_sample) NotLaunched)
         initial ip_route_sample eq_refl))) eq_refl
      [] ["10.0.0.0/24 dev eth0 proto kernel scope link src 10.0.0.7"]
      eq_refl _).
    constructor.
  - refine (proj1 (proj2
      (get_default_gateway_first_matching_line
         (posix_world (0%Z, "") NotLaunched) initial "" eq_refl)) _).
    constructor.
Defined.

(** A line that carries the label but too few tokens is passed over, and
    the scan goes on to the next line. *)
Example short_label_line_is_passed_over :
  scan_default_gateway ["Default Gateway"; "Default Gateway . : 10.0.0.1"]
  = Some "10.0.0.1".
Proof. reflexivity. Qed.

(** C9.  On Windows, when the first line of the [ipconfig] output that
    contains "Default Gateway" has at least 4 tokens and ends in the
    label's colon with nothing but white space after it,
    [get_default_gateway] returns the token ":" as the gateway, not
    [None]. *)
Theorem get_default_gateway_returns_colon :
  forall (w : World) (st : State) (output : string)
         (pre post : list string) (body trail : string),
    on_windows w = true ->
    shell w "ipconfig" = Exited 0 output ->
    splitlines output = pre ++ (body ++ " :" ++ trail)%string :: post ->
    Forall (fun l => contains "Default Gateway" l = false) pre ->
    contains "Default Gateway" (body ++ " :" ++ trail) = true ->
    4 <= List.length (split (body ++ " :" ++ trail)) ->
    blank trail = true ->
    outcome (get_default_gateway w st) = Ok (Some ":").
Proof.
  intros w st output pre post body trail Hw Hrun Hsplit Hpre Hlabel Hlen Hblank.
  unfold outcome. rewrite get_default_gateway_run. cbn [snd].
  rewrite (gateway_outcome_exit0 w output)
    by (unfold gateway_command; rewrite Hw; exact Hrun).
  rewrite (parse_gateway_first w output pre post _ Hsplit).
  - rewrite Hw. unfold gateway_token.
    now rewrite split_trailing_colon.
  - rewrite Hw. eapply Forall_impl; [|exact Hpre].
    intros l Hl. unfold gateway_line_matches. now rewrite Hl.
  - rewrite Hw. unfold gateway_line_matches. rewrite Hlabel.
    apply Nat.leb_le in Hlen. now rewrite Hlen.
Qed.

Lemma get_default_gateway_returns_colon_witness :
  outcome (get_default_gateway
             (windows_world (0%Z, ipconfig_no_gateway) (0%Z, "") NotLaunched)
             initial)
  = Ok (Some ":").
Proof.
  apply (get_default_gateway_returns_colon
           (windows_world (0%Z, ipconfig_no_gateway) (0%Z, "") NotLaunched)
           initial ipconfig_no_gateway
           ["Ethernet adapter Ethernet:"] []
           "   Default Gateway . . . . . . ." "").
  - reflexivity.
  - reflexivity.
  - reflexivity.
  - repeat constructor.
  - reflexivity.
  - vm_compute; lia.
  - reflexivity.
Defined.

(* ================================================================== *)
(** ** The interface enumerator *)
(* ================================================================== *)

Lemma scan_addrs_filter (interface : string) (addrs : list snicaddr) :
  scan_addrs interface addrs
  = hd_error (map (fun addr => (address addr, interface)) (filter usable addrs)).
Proof.
  induction addrs as [|addr addrs IH]; cbn [scan_addrs filter]; [reflexivity|].
  unfold usable at 1.
  destruct (family_eqb (family addr) AF_INET
            && negb (startswith "127." (address addr))); [reflexivity|exact IH].
Qed.

Lemma hd_error_app {A} (l1 l2 : list A) :
  hd_error (l1 ++ l2)
  = match hd_error l1 with Some x => Some x | None => hd_error l2 end.
Proof. destruct l1; reflexivity. Qed.

Lemma scan_interfaces_candidates (items : list (string * list snicaddr)) :
  scan_interfaces items = hd_error (candidates items).
Proof.
  induction items as [|[interface addrs] items IH];
    cbn [scan_interfaces candidates flat_map fst snd]; [reflexivity|].
  rewrite hd_error_app, <- scan_addrs_filter.
  destruct (scan_addrs interface addrs); [reflexivity|exact IH].
Qed.

Lemma hd_of_hd_error {A} (l : list A) (d : A) :
  match hd_error l with Some x => x | None => d end = hd d l.
Proof. destruct l; reflexivity. Qed.

(** The textual test is the test of the range 127.0.0.0/8: a dotted quad
    begins with "127." exactly when its first octet is 127. *)
Lemma loopback_prefix (a b c d : nat) :
  a < 256 -> startswith "127." (dotted_quad a b c d) = (a =? 127).
Proof.
  intros Ha. unfold startswith, dotted_quad.
  generalize (decimal b ++ "." ++ decimal c ++ "." ++ decimal d)%string.
  intros rest.
  do 256 (destruct a as [|a]; [destruct rest; reflexivity|]).
  lia.
Qed.

(** C8.  [get_ip_and_interface] never raises.  It returns the first pair
    (address, interface name), in the order of the enumeration, whose
    address is of the IPv4 family and is not in 127.0.0.0/8 (the text of
    the address does not begin with "127.", which for a dotted quad says
    that the first octet is not 127); when no address qualifies, or the
    enumeration raises, it returns ("N/A", "N/A"). *)
Theorem get_ip_and_interface_first_usable :
  forall (w : World) (st : State),
    outcome (get_ip_and_interface w st)
    = Ok (match net_if_addrs w with
          | Ok items => hd ("N/A", "N/A") (candidates items)
          | Raise _ => ("N/A", "N/A")
          end)
    /\ (forall (a b c d : nat),
           a < 256 ->
           usable (mk_snicaddr AF_INET (dotted_quad a b c d)) = negb (a =? 127)).
Proof.
  intros w st. split.
  - unfold outcome. rewrite get_ip_and_interface_run. cbn [snd].
    unfold interface_outcome.
    destruct (net_if_addrs w) as [items|e]; [|reflexivity].
    now rewrite scan_interfaces_candidates, hd_of_hd_error.
  - intros a b c d Ha. unfold usable. cbn [family address family_eqb andb].
    now rewrite loopback_prefix.
Qed.

Lemma get_ip_and_interface_first_usable_witness :
  outcome (get_ip_and_interface (posix_world (0%Z, "") NotLaunched) initial)
  = Ok ("10.0.0.7", "eth0")
  /\ usable (mk_snicaddr AF_INET (dotted_quad 127 0 0 1)) = false
  /\ usable (mk_snicaddr AF_INET (dotted_quad 12 7 0 1)) = true.
Proof.
  pose proof (get_ip_and_interface_first_usable
                (posix_world (0%Z, "") NotLaunched) initial) as [H1 H2].
  split; [exact H1|split].
  - apply (H2 127 0 0 1). lia.
  - apply (H2 12 7 0 1). lia.
Defined.

(* ================================================================== *)
(** ** The DNS resolver *)
(* ================================================================== *)

(** A name that the resolver cannot even be asked about: the exception
    is no [socket.error], the handler does not catch it, and it leaves
    [dns_query] instead of the marker. *)
Lemma dns_query_lets_other_exception_escape :
  String.length long_label_host = 68
  /\ gethostbyname long_label_world long_label_host = Raise OtherException
  /\ outcome (dns_query long_label_world long_label_host initial)
     = Raise OtherException
  /\ outcome (dns_query long_label_world long_label_host initial)
     <> Ok "DNS resolution failed".
Proof.
  split; [reflexivity|split; [reflexivity|split; [reflexivity|]]].
  intros H. discriminate H.
Qed.

(** C6, as the code has it.  For every hostname, [dns_query] makes
    exactly one lookup of that hostname.  When the lookup resolves it
    returns the address; when the lookup raises a [socket.error] it
    returns exactly "DNS resolution failed" and nothing is raised; an
    exception of any other class is not caught and leaves [dns_query]
    as it is. *)
Theorem dns_query_one_lookup_marker_on_error :
  forall (w : World) (hostname : string) (st : State),
    trace (final (dns_query w hostname st)) = trace st ++ [EvResolve hostname]
    /\ (forall a, gethostbyname w hostname = Ok a ->
                  outcome (dns_query w hostname st) = Ok a)
    /\ (forall e, gethostbyname w hostname = Raise e ->
                  is_socket_error e = true ->
                  outcome (dns_query w hostname st) = Ok "DNS resolution failed")
    /\ (forall e, gethostbyname w hostname = Raise e ->
                  is_socket_error e = false ->
                  outcome (dns_query w hostname st) = Raise e).
Proof.
  intros w hostname st. unfold final, outcome.
  rewrite dns_query_run. cbn [fst snd]. unfold dns_outcome.
  split; [reflexivity|split; [|split]].
  - now intros a ->.
  - now intros e -> ->.
  - now intros e -> ->.
Qed.

Lemma dns_query_one_lookup_marker_on_error_witness :
  outcome (dns_query (posix_world (0%Z, "") NotLaunched) "google.com" initial)
  = Ok "142.250.1.1"
  /\ outcome (dns_query (posix_world (0%Z, "") NotLaunched) "no.such.host" initial)
     = Ok "DNS resolution failed"
  /\ outcome (dns_query long_label_world long_label_host initial)
     = Raise OtherException.
Proof.
  split; [|split].
  - exact (proj1 (proj2 (dns_query_one_lookup_marker_on_error
                           (posix_world (0%Z, "") NotLaunched)
                           "google.com" initial))
                 "142.250.1.1" eq_refl).
  - exact (proj1 (proj2 (proj2 (dns_query_one_lookup_marker_on_error
                           (posix_world (0%Z, "") NotLaunched)
                           "no.such.host" initial)))
                 OSError eq_refl eq_refl).
  - exact (proj2 (proj2 (proj2 (dns_query_one_lookup_marker_on_error
                           long_label_world long_label_host initial)))
                 OtherException eq_refl eq_refl).
Defined.

(* ================================================================== *)
(** ** The logon server resolver *)
(* ================================================================== *)

(** With the variable unset, the resolver returns the unexpanded text,
    which is not "Not available". *)
Lemma get_logon_server_unset_not_marked :
  shell timed_out_world "echo %logonserver%" = Exited 0 ("%logonserver%" ++ nl)
  /\ outcome (get_logon_server timed_out_world initial) = Ok "%logonserver%"
  /\ outcome (get_logon_server timed_out_world initial) <> Ok "Not available".
Proof. split; [reflexivity|split; [reflexivity|discriminate]]. Qed.

(** C5, as the code has it.  [get_logon_server] returns "N/A" on every
    platform but Windows; on Windows it returns the trimmed output of the
    shell query when the command exits with status 0, whatever that text
    is, and "N/A" when the command exits with another status.  It has no
    case of its own for an unset value: it returns "Not available" only
    when that is the trimmed text the command printed. *)
Theorem get_logon_server_by_platform :
  forall (w : World) (st : State),
    (on_windows w = false -> outcome (get_logon_server w st) = Ok "N/A")
    /\ (on_windows w = true ->
        forall out, shell w "echo %logonserver%" = Exited 0 out ->
                    outcome (get_logon_server w st) = Ok (strip out))
    /\ (on_windows w = true ->
        forall rc out, rc <> 0%Z ->
                       shell w "echo %logonserver%" = Exited rc out ->
                       outcome (get_logon_server w st) = Ok "N/A")
    /\ (outcome (get_logon_server w st) = Ok "Not available" ->
        on_windows w = true
        /\ exists out, shell w "echo %logonserver%" = Exited 0 out
                       /\ strip out = "Not available").
Proof.
  intros w st. unfold outcome. rewrite get_logon_server_run. cbn [snd].
  unfold logon_outcome.
  split; [|split; [|split]].
  - now intros ->.
  - now intros -> out ->.
  - intros -> rc out Hrc ->.
    destruct (Z.eqb_spec rc 0); [contradiction|reflexivity].
  - destruct (on_windows w); [|discriminate].
    destruct (shell w "echo %logonserver%") as [rc out|]; [|discriminate].
    destruct (Z.eqb_spec rc 0) as [->|Hrc]; [|discriminate].
    intros [= Hout]. split; [reflexivity|]. now exists out.
Qed.

Lemma get_logon_server_by_platform_witness :
  outcome (get_logon_server (posix_world (0%Z, "") NotLaunched) initial) = Ok "N/A"
  /\ outcome (get_logon_server
                (windows_world (0%Z, "") (0%Z, "\\DC01 " ++ nl)%string NotLaunched)
                initial)
     = Ok "\\DC01"
  /\ outcome (get_logon_server
                (windows_world (0%Z, "") (1%Z, "") NotLaunched) initial)
     = Ok "N/A".
Proof.
  split; [|split].
  - exact (proj1 (get_logon_server_by_platform
                    (posix_world (0%Z, "") NotLaunched) initial) eq_refl).
  - exact (proj1 (proj2 (get_logon_server_by_platform
                    (windows_world (0%Z, "") (0%Z, "\\DC01 " ++ nl)%string NotLaunched)
                    initial)) eq_refl ("\\DC01 " ++ nl)%string eq_refl).
  - refine (proj1 (proj2 (proj2 (get_logon_server_by_platform
                    (windows_world (0%Z, "") (1%Z, "") NotLaunched)
                    initial))) eq_refl 1%Z "" _ eq_refl).
    lia.
Defined.

(* ================================================================== *)
(** ** The probe executor *)
(* ================================================================== *)

(** A probe that exits with status 1 after printing a time-out: [ping]
    returns "Ping failed" and the captured text is gone. *)
Lemma ping_drops_captured_text :
  exec timed_out_world (ping_command timed_out_world "192.168.1.1")
  = Exited 1 "Request timed out."
  /\ outcome (ping timed_out_world "192.168.1.1" initial) = Ok "Ping failed"
  /\ contains "Request timed out." "Ping failed" = false.
Proof. repeat split. Qed.

(** C2, as the code has it.  For every target, [ping] runs the ping
    command once; when the subprocess exits with a non-zero status it
    returns the literal "Ping failed", whatever text was captured; when it
    exits with status 0 it returns the captured text unchanged; when the
    subprocess cannot be started the [OSError] is not caught and leaves
    [ping]. *)
Theorem ping_by_exit_status :
  forall (w : World) (host : string) (st : State),
    trace (final (ping w host st)) = trace st ++ [EvExec (ping_command w host)]
    /\ (forall rc captured,
           exec w (ping_command w host) = Exited rc captured ->
           rc <> 0%Z ->
           outcome (ping w host st) = Ok "Ping failed")
    /\ (forall captured,
           exec w (ping_command w host) = Exited 0 captured ->
           outcome (ping w host st) = Ok captured)
    /\ (exec w (ping_command w host) = NotLaunched ->
        outcome (ping w host st) = Raise OSError).
Proof.
  intros w host st. unfold final, outcome. rewrite ping_run. cbn [fst snd].
  unfold ping_outcome.
  split; [reflexivity|split; [|split]].
  - intros rc captured -> Hrc.
    destruct (Z.eqb_spec rc 0); [contradiction|reflexivity].
  - now intros captured ->.
  - now intros ->.
Qed.

Lemma ping_by_exit_status_witness :
  outcome (ping (posix_world (0%Z, "") (Exited 2 "connect: Network is unreachable"))
                "10.0.0.1" initial)
  = Ok "Ping failed"
  /\ outcome (ping (posix_world (0%Z, "") (Exited 0 "64 bytes from 10.0.0.1"))
                   "10.0.0.1" initial)
     = Ok "64 bytes from 10.0.0.1".
Proof.
  split.
  - refine (proj1 (proj2 (ping_by_exit_status
              (posix_world (0%Z, "") (Exited 2 "connect: Network is unreachable"))
              "10.0.0.1" initial))
              2%Z "connect: Network is unreachable" eq_refl _).
    lia.
  - exact (proj1 (proj2 (proj2 (ping_by_exit_status
              (posix_world (0%Z, "") (Exited 0 "64 bytes from 10.0.0.1"))
              "10.0.0.1" initial)))
              "64 bytes from 10.0.0.1" eq_refl).
Defined.

(* ================================================================== *)
(** ** The probe summariser *)
(* ================================================================== *)

Lemma scan_ping_windows_first (pre post : list string) (line : string) :
  Forall (fun l => windows_marker l = false) pre ->
  windows_marker line = true ->
  scan_ping_windows (pre ++ line :: post) = Some (strip line).
Proof.
  unfold windows_marker.
  induction 1 as [|l pre Hl _ IH]; intros Hm; cbn [app scan_ping_windows].
  - destruct (contains "Reply from" line || contains "Request timed out" line);
      [reflexivity|].
    cbn [orb] in Hm. now rewrite Hm.
  - apply orb_false_iff in Hl as [-> ->]. auto.
Qed.

Lemma scan_ping_windows_none (lines : list string) :
  Forall (fun l => windows_marker l = false) lines ->
  scan_ping_windows lines = None.
Proof.
  unfold windows_marker.
  induction 1 as [|l lines Hl _ IH]; cbn [scan_ping_windows]; [reflexivity|].
  apply orb_false_iff in Hl as [-> ->]. exact IH.
Qed.

Lemma scan_ping_posix_none (lines : list string) :
  Forall (fun l => posix_marker l = false) lines ->
  scan_ping_posix lines = None.
Proof.
  unfold posix_marker.
  induction 1 as [|l lines Hl _ IH]; cbn [scan_ping_posix]; [reflexivity|].
  now rewrite Hl.
Qed.

Lemma truthy_nonempty (g : string) : g <> "" -> truthy g = true.
Proof. destruct g; [congruence|reflexivity]. Qed.




(** C10.  Text that holds neither "Ping failed" nor "timeout" in any
    letter case, and no line of which is a marker line of the platform
    ("Reply from", "Request timed out" or "Packets:" on Windows,
    "bytes from" in any letter case elsewhere), is summarised as
    "Success"; so is the empty text. *)
Theorem parse_ping_output_default_success :
  forall (w : World) (ping_output : string),
    (contains "Ping failed" ping_output = false ->
     contains "timeout" (lower ping_output) = false ->
     (forall line, In line (split_on LF ping_output) -> marker w line = false) ->
     _parse_ping_output w ping_output = "Success")
    /\ _parse_ping_output w "" = "Success".
Proof.
  intros w ping_output.
  assert (forall text,
             contains "Ping failed" text = false ->
             contains "timeout" (lower text) = false ->
             (forall line, In line (split_on LF text) -> marker w line = false) ->
             _parse_ping_output w text = "Success") as Hgen.
  { intros text Hp Ht Hlines. unfold _parse_ping_output. rewrite Hp, Ht.
    cbn [orb]. unfold marker in Hlines. apply Forall_forall in Hlines.
    destruct (on_windows w).
    - now rewrite scan_ping_windows_none.
    - now rewrite scan_ping_posix_none. }
  split; [apply Hgen|].
  apply Hgen; try reflexivity.
  intros line [<- | []]. unfold marker; destruct (on_windows w); reflexivity.
Qed.

Lemma parse_ping_output_default_success_witness :
  _parse_ping_output (posix_world (0%Z, "") NotLaunched)
                     ("PING 10.0.0.1 (10.0.0.1) 56(84) bytes of data." ++ nl)
  = "Success"
  /\ _parse_ping_output (windows_world (0%Z, "") (0%Z, "") NotLaunched) ""
     = "Success".
Proof.
  split.
  - apply (proj1 (parse_ping_output_default_success
                    (posix_world (0%Z, "") NotLaunched)
                    ("PING 10.0.0.1 (10.0.0.1) 56(84) bytes of data." ++ nl)));
      try reflexivity.
    intros line [<- | [<- | []]]; reflexivity.
  - exact (proj2 (parse_ping_output_default_success
                    (windows_world (0%Z, "") (0%Z, "") NotLaunched) "")).
Defined.

(* ================================================================== *)
(** ** The aggregator [check_connection] *)
(* ================================================================== *)

(** One run of [check_connection], case by case. *)
Lemma check_connection_run (w : World) (st : State) :
  check_connection w st =
  match gateway_outcome w with
  | Raise e => (logged st [EvShell (gateway_command w)], Raise e)
  | Ok gateway =>
      match logon_outcome w with
      | Raise e => (logged st (resolver_events w), Raise e)
      | Ok logon_server =>
          let shown gw evs :=
            mk_State gw
                     ("IP: " ++ fst (interface_outcome w))
                     ("Interface: " ++ snd (interface_outcome w))
                     (dns_result st)
                     ("Logon Server: " ++ logon_server)
                     (trace st ++ resolver_events w ++ evs) in
          match gateway with
          | Some g =>
              if truthy g
              then match ping_outcome w g with
                   | Ok ping_result =>
                       dns_step w (shown ("Gateway (" ++ g ++ "):" ++ nl ++ ping_result)%string
                                         [EvExec (ping_command w g)])
                   | Raise e =>
                       (shown (gw_result st) [EvExec (ping_command w g)], Raise e)
                   end
              else dns_step w (shown "Gateway not found" [])
          | None => dns_step w (shown "Gateway not found" [])
          end
      end
  end.
Proof.
  unfold check_connection, dns_step, resolver_events.
  unfold bind at 1. rewrite get_default_gateway_run.
  destruct (gateway_outcome w) as [gateway|e]; [|reflexivity].
  unfold bind at 1. rewrite get_ip_and_interface_run.
  destruct (interface_outcome w) as [ip_address interface].
  unfold bind at 1. rewrite get_logon_server_run.
  destruct (logon_outcome w) as [logon_server|e];
    [|rewrite !logged_logged; reflexivity].
  rewrite !logged_logged. cbn [fst snd].
  unfold bind at 1. unfold set_ip_result at 1.
  unfold bind at 1. unfold set_interface_result at 1.
  unfold bind at 1. unfold set_logon_server_result at 1.
  unfold bind at 1.
  assert (forall st', (dns_ip <- dns_query w "google.com" ;;
                       set_dns_result ("DNS google.com: " ++ dns_ip)) st'
                      = dns_step w st') as Hdns.
  { intros st'. unfold bind, dns_step. rewrite dns_query_run.
    destruct (dns_outcome w "google.com"); reflexivity. }
  unfold dns_step in Hdns.
  destruct gateway as [g|].
  - destruct (truthy g).
    + unfold bind at 1. rewrite ping_run.
      destruct (ping_outcome w g) as [ping_result|e].
      * unfold set_gw_result at 1. rewrite Hdns. state_norm. reflexivity.
      * state_norm. reflexivity.
    + unfold set_gw_result at 1. rewrite Hdns. state_norm. reflexivity.
  - unfold set_gw_result at 1. rewrite Hdns. state_norm. reflexivity.
Qed.

Lemma dns_step_gw_result (w : World) (st : State) :
  gw_result (fst (dns_step w st)) = gw_result st.
Proof. unfold dns_step; destruct (dns_outcome w "google.com"); reflexivity. Qed.

Lemma dns_step_trace (w : World) (st : State) :
  trace (fst (dns_step w st)) = trace st ++ [EvResolve "google.com"].
Proof. unfold dns_step; destruct (dns_outcome w "google.com"); reflexivity. Qed.

Lemma dns_step_outcome (w : World) (st : State) :
  (forall e, gethostbyname w "google.com" = Raise e -> is_socket_error e = true) ->
  snd (dns_step w st) = Ok tt.
Proof.
  intros H. unfold dns_step, dns_outcome.
  destruct (gethostbyname w "google.com") as [a|e]; [reflexivity|].
  now rewrite (H e eq_refl).
Qed.

(** When the gateway resolver returned, the command interpreter could be
    started, so the logon server resolver returns too. *)
Lemma logon_outcome_after_gateway (w : World) (gateway : option string) :
  gateway_outcome w = Ok gateway -> exists logon, logon_outcome w = Ok logon.
Proof.
  unfold gateway_outcome, logon_outcome, shell.
  destruct (interpreter w) as [run|]; [intros _|discriminate].
  destruct (on_windows w); [|now exists "N/A"].
  destruct (fst (run "echo %logonserver%") =? 0)%Z; eauto.
Qed.

Lemma attempted_is_not_not_found (g ping_result : string) :
  ("Gateway (" ++ g ++ "):" ++ nl ++ ping_result)%string <> "Gateway not found".
Proof. intros H. cbn [append] in H. congruence. Qed.

Lemma no_exec_in_resolver_events (w : World) (argv : list string) :
  ~ In (EvExec argv) (resolver_events w ++ [EvResolve "google.com"]).
Proof.
  unfold resolver_events, logon_events.
  destruct (on_windows w); cbn; intuition discriminate.
Qed.

(** Without a default route [check_connection] runs no probe at all, so
    none of a fixed internet address. *)
Lemma check_connection_without_probe :
  trace (final (check_connection no_route_world initial))
  = [EvShell "ip route"; EvNetIfAddrs; EvResolve "google.com"]
  /\ outcome (check_connection no_route_world initial) = Ok tt
  /\ forall argv,
      ~ In (EvExec argv) (trace (final (check_connection no_route_world initial))).
Proof.
  split; [reflexivity|split; [reflexivity|]].
  intros argv Hin. vm_compute in Hin.
  destruct Hin as [H|[H|[H|[]]]]; discriminate H.
Qed.

(** C3, as the code has it.  In every invocation of [check_connection] in
    which the child processes can be started and the lookup raises at most
    a resolution error, the steps run in this order, whatever values the
    earlier ones returned: the gateway resolver, the interface enumerator,
    the logon server resolver (a shell query on Windows only), one probe
    of the gateway when one was found and none otherwise, and the lookup
    of google.com.  No probe of a fixed internet address is made. *)
Theorem check_connection_steps :
  forall (w : World) (st : State) (gateway : option string),
    outcome (get_default_gateway w st) = Ok gateway ->
    (forall g, gateway = Some g -> exec w (ping_command w g) <> NotLaunched) ->
    (forall e, gethostbyname w "google.com" = Raise e -> is_socket_error e = true) ->
    outcome (check_connection w st) = Ok tt
    /\ trace (final (check_connection w st))
       = trace st
         ++ [EvShell (gateway_command w); EvNetIfAddrs]
         ++ (if on_windows w then [EvShell "echo %logonserver%"] else [])
         ++ match gateway with
            | Some g => [EvExec (ping_command w g)]
            | None => []
            end
         ++ [EvResolve "google.com"].
Proof.
  intros w st gateway Hgw Hexec Hdns.
  unfold outcome in Hgw. rewrite get_default_gateway_run in Hgw. cbn [snd] in Hgw.
  destruct (logon_outcome_after_gateway w gateway Hgw) as [logon Hlogon].
  unfold outcome, final. rewrite check_connection_run, Hgw, Hlogon.
  cbv zeta. change (logon_events w)
    with (if on_windows w then [EvShell "echo %logonserver%"] else []).
  destruct gateway as [g|].
  - rewrite (gateway_outcome_nonempty w g Hgw).
    specialize (Hexec g eq_refl). unfold ping_outcome.
    destruct (exec w (ping_command w g)) as [rc captured|]; [|congruence].
    destruct (rc =? 0)%Z;
      (split; [now apply dns_step_outcome
              | rewrite dns_step_trace; unfold resolver_events, logon_events;
                state_norm; reflexivity]).
  - split; [now apply dns_step_outcome|].
    rewrite dns_step_trace. unfold resolver_events, logon_events.
    state_norm. reflexivity.
Qed.

Lemma check_connection_steps_witness :
  trace (final (check_connection
                  (windows_world (0%Z, ipconfig_sample) logonserver_unset
                                 (Exited 1 "Request timed out."))
                  initial))
  = [EvShell "ipconfig"; EvNetIfAddrs; EvShell "echo %logonserver%";
     EvExec ["ping"; "-n"; "1"; "192.168.1.1"]; EvResolve "google.com"].
Proof.
  refine (proj2 (check_connection_steps
                   (windows_world (0%Z, ipconfig_sample) logonserver_unset
                                  (Exited 1 "Request timed out."))
                   initial (Some "192.168.1.1") eq_refl _ _)).
  - intros g _. discriminate.
  - intros e [= <-]. reflexivity.
Defined.

(** A gateway is found and the probe is attempted, but the ping program
    cannot be started: nothing is recorded, and the gateway field still
    reads "Gateway not found" from the check before. *)
Lemma gateway_found_but_shown_not_found :
  gw_result shown_not_found = "Gateway not found"
  /\ outcome (get_default_gateway no_ping_world shown_not_found)
     = Ok (Some "192.168.1.1")
  /\ In (EvExec ["ping"; "-n"; "1"; "192.168.1.1"])
        (trace (final (check_connection no_ping_world shown_not_found)))
  /\ outcome (check_connection no_ping_world shown_not_found) = Raise OSError
  /\ gw_result (final (check_connection no_ping_world shown_not_found))
     = "Gateway not found".
Proof.
  split; [reflexivity|split; [reflexivity|split; [|split; reflexivity]]].
  vm_compute. tauto.
Qed.

(** C4, as the code has it.  When the gateway resolver returns an
    address, [check_connection] runs the probe against that address; when
    [ping] returns, its text ("Ping failed" for a failed probe) is what
    the gateway field shows, after the address, and that is never
    "Gateway not found"; when the ping program cannot be started, the
    [OSError] leaves [check_connection] and the gateway field keeps what
    it showed before.  When the resolver returns [None], no probe is run
    and the gateway field is "Gateway not found". *)
Theorem gateway_probe_iff_gateway_found :
  forall (w : World) (st : State),
    (forall g,
        outcome (get_default_gateway w st) = Ok (Some g) ->
        In (EvExec (ping_command w g)) (trace (final (check_connection w st)))
        /\ (forall ping_result,
               outcome (ping w g st) = Ok ping_result ->
               gw_result (final (check_connection w st))
               = ("Gateway (" ++ g ++ "):" ++ nl ++ ping_result)%string
               /\ gw_result (final (check_connection w st)) <> "Gateway not found")
        /\ (exec w (ping_command w g) = NotLaunched ->
            outcome (check_connection w st) = Raise OSError
            /\ gw_result (final (check_connection w st)) = gw_result st))
    /\ (outcome (get_default_gateway w st) = Ok None ->
        gw_result (final (check_connection w st)) = "Gateway not found"
        /\ exists evs,
            trace (final (check_connection w st)) = trace st ++ evs
            /\ forall argv, ~ In (EvExec argv) evs).
Proof.
  intros w st. unfold outcome, final.
  rewrite get_default_gateway_run. cbn [snd]. split.
  - intros g Hgw.
    destruct (logon_outcome_after_gateway w _ Hgw) as [logon Hlogon].
    rewrite check_connection_run, Hgw, Hlogon.
    rewrite (gateway_outcome_nonempty w g Hgw). cbv zeta.
    rewrite ping_run. cbn [snd].
    assert (exec w (ping_command w g) = NotLaunched ->
            ping_outcome w g = Raise OSError) as Hlaunch
      by (unfold ping_outcome; now intros ->).
    destruct (ping_outcome w g) as [probe|e].
    + rewrite dns_step_gw_result, dns_step_trace. cbn [gw_result trace].
      split; [|split].
      * rewrite !in_app_iff. left. right. right. now left.
      * intros ping_result [= <-].
        split; [reflexivity|apply attempted_is_not_not_found].
      * intros H. specialize (Hlaunch H). discriminate Hlaunch.
    + cbn [fst snd trace gw_result]. split; [|split].
      * rewrite !in_app_iff. right. right. now left.
      * discriminate.
      * intros H. specialize (Hlaunch H). injection Hlaunch as ->.
        split; reflexivity.
  - intros Hgw.
    destruct (logon_outcome_after_gateway w _ Hgw) as [logon Hlogon].
    rewrite check_connection_run, Hgw, Hlogon. cbv zeta.
    rewrite dns_step_gw_result, dns_step_trace. cbn [gw_result trace].
    split; [reflexivity|].
    exists (resolver_events w ++ [EvResolve "google.com"]).
    split; [now rewrite app_nil_r, <- app_assoc|].
    apply no_exec_in_resolver_events.
Qed.

Lemma gateway_probe_iff_gateway_found_witness :
  gw_result (final (check_connection
                      (windows_world (0%Z, ipconfig_sample) logonserver_unset
                                     (Exited 1 "Request timed out."))
                      initial))
  = ("Gateway (192.168.1.1):" ++ nl ++ "Ping failed")%string
  /\ gw_result (final (check_connection (posix_world (0%Z, "") NotLaunched)
                                        initial))
     = "Gateway not found"
  /\ outcome (check_connection no_ping_world initial) = Raise OSError.
Proof.
  split; [|split].
  - exact (proj1 (proj1 (proj2 (proj1 (gateway_probe_iff_gateway_found
                    (windows_world (0%Z, ipconfig_sample) logonserver_unset
                                   (Exited 1 "Request timed out."))
                    initial) "192.168.1.1" eq_refl)) "Ping failed" eq_refl)).
  - exact (proj1 (proj2 (gateway_probe_iff_gateway_found
                    (posix_world (0%Z, "") NotLaunched) initial) eq_refl)).
  - exact (proj1 (proj2 (proj2 (proj1 (gateway_probe_iff_gateway_found
                    no_ping_world initial) "192.168.1.1" eq_refl)) eq_refl)).
Defined.

(* ================================================================== *)
(** ** More on the gateway resolver *)
(* ================================================================== *)

Lemma spaceless_snoc (s : string) (c : ascii) :
  spaceless s = true -> isspace c = false -> spaceless (snoc s c) = true.
Proof.
  intros Hs Hc. induction s as [|d s IH]; cbn [snoc append spaceless] in *.
  - now rewrite Hc.
  - apply andb_true_iff in Hs as [Hd Hs]. rewrite Hd. now apply IH.
Qed.

Lemma split_from_spaceless (s cur : string) :
  spaceless cur = true ->
  Forall (fun t => spaceless t = true) (split_from s cur).
Proof.
  revert cur; induction s as [|c s IH]; intros cur Hcur; cbn [split_from].
  - destruct (is_empty cur); auto.
  - destruct (isspace c) eqn:Hc.
    + destruct (is_empty cur); [|constructor]; auto.
    + apply IH. now apply spaceless_snoc.
Qed.

Lemma split_tokens_spaceless (s t : string) :
  In t (split s) -> spaceless t = true.
Proof.
  intros Hin. pose proof (split_from_spaceless s "" eq_refl) as HF.
  rewrite Forall_forall in HF. now apply HF.
Qed.

Lemma gateway_token_in_split (windows : bool) (line : string) :
  gateway_line_matches windows line = true ->
  In (gateway_token windows line) (split line).
Proof.
  unfold gateway_line_matches, gateway_token. destruct windows;
    intros H; apply andb_true_iff in H as [_ H]; apply Nat.leb_le in H.
  - apply last_in_list. destruct (split line); [cbn in H; lia|discriminate].
  - apply nth_In. lia.
Qed.

Lemma scan_default_gateway_sound (lines : list string) (g : string) :
  scan_default_gateway lines = Some g ->
  exists line, In line lines
               /\ gateway_line_matches true line = true
               /\ g = gateway_token true line.
Proof.
  unfold gateway_line_matches, gateway_token.
  induction lines as [|l lines IH]; cbn [scan_default_gateway]; [discriminate|].
  destruct (contains "Default Gateway" l) eqn:Hl;
    [destruct (4 <=? List.length (split l)) eqn:Hn|].
  - intros [= <-]. exists l. rewrite Hl, Hn. repeat split. now left.
  - intros H. destruct (IH H) as (line & Hin & Hm). exists line.
    split; [now right|exact Hm].
  - intros H. destruct (IH H) as (line & Hin & Hm). exists line.
    split; [now right|exact Hm].
Qed.

Lemma scan_default_via_sound (lines : list string) (g : string) :
  scan_default_via lines = Some g ->
  exists line, In line lines
               /\ gateway_line_matches false line = true
               /\ g = gateway_token false line.
Proof.
  unfold gateway_line_matches, gateway_token.
  induction lines as [|l lines IH]; cbn [scan_default_via]; [discriminate|].
  destruct (startswith "default via" l) eqn:Hl;
    [destruct (3 <=? List.length (split l)) eqn:Hn|].
  - intros [= <-]. exists l. rewrite Hl, Hn. repeat split. now left.
  - intros H. destruct (IH H) as (line & Hin & Hm). exists line.
    split; [now right|exact Hm].
  - intros H. destruct (IH H) as (line & Hin & Hm). exists line.
    split; [now right|exact Hm].
Qed.

(** X1.  [get_default_gateway] runs exactly one command, "ipconfig" on
    Windows and "ip route" elsewhere, and writes no field.  When the
    command exits with a status other than 0 the result is [None] and the
    text it printed is not read; when the command interpreter cannot be
    started the [OSError] leaves the function. *)
Theorem get_default_gateway_command_failure :
  forall (w : World) (st : State),
    trace (final (get_default_gateway w st))
    = trace st ++ [EvShell (if on_windows w then "ipconfig" else "ip route")]
    /\ shown_fields (final (get_default_gateway w st)) = shown_fields st
    /\ (forall rc output,
           shell w (gateway_command w) = Exited rc output ->
           rc <> 0%Z ->
           outcome (get_default_gateway w st) = Ok None)
    /\ (interpreter w = None ->
        outcome (get_default_gateway w st) = Raise OSError).
Proof.
  intros w st. unfold final, outcome. rewrite get_default_gateway_run.
  cbn [fst snd]. unfold gateway_outcome.
  split; [reflexivity|split; [reflexivity|split]].
  - intros rc output -> Hrc.
    destruct (Z.eqb_spec rc 0); [contradiction|reflexivity].
  - intros Hnone. unfold shell. now rewrite Hnone.
Qed.

Lemma get_default_gateway_command_failure_witness :
  outcome (get_default_gateway
             (posix_world (2%Z, ip_route_sample) NotLaunched) initial)
  = Ok None
  /\ outcome (get_default_gateway
                (mk_World "Linux" None (fun _ => NotLaunched) (Ok [])
                          (fun _ => Raise OSError)) initial)
     = Raise OSError.
Proof.
  split.
  - refine (proj1 (proj2 (proj2 (get_default_gateway_command_failure
              (posix_world (2%Z, ip_route_sample) NotLaunched) initial)))
              2%Z ip_route_sample eq_refl _).
    lia.
  - exact (proj2 (proj2 (proj2 (get_default_gateway_command_failure
              (mk_World "Linux" None (fun _ => NotLaunched) (Ok [])
                        (fun _ => Raise OSError)) initial))) eq_refl).
Defined.

(** X2.  A gateway that [get_default_gateway] returns is always a token
    of a line that the command printed with exit status 0: a line that
    carries the marker of the platform and has enough tokens.  The
    gateway is never empty and holds no white space. *)
Theorem get_default_gateway_sound :
  forall (w : World) (st : State) (g : string),
    outcome (get_default_gateway w st) = Ok (Some g) ->
    exists output line,
      shell w (gateway_command w) = Exited 0 output
      /\ In line (splitlines output)
      /\ gateway_line_matches (on_windows w) line = true
      /\ g = gateway_token (on_windows w) line
      /\ In g (split line)
      /\ g <> ""
      /\ spaceless g = true.
Proof.
  intros w st g. unfold outcome. rewrite get_default_gateway_run. cbn [snd].
  unfold gateway_outcome, parse_gateway.
  destruct (shell w (gateway_command w)) as [rc output|]; [|discriminate].
  destruct (Z.eqb_spec rc 0) as [->|Hrc]; [|discriminate].
  intros [= H].
  assert (exists line, In line (splitlines output)
                       /\ gateway_line_matches (on_windows w) line = true
                       /\ g = gateway_token (on_windows w) line)
    as (line & Hin & Hm & ->).
  { destruct (on_windows w);
      [apply scan_default_gateway_sound | apply scan_default_via_sound]; auto. }
  pose proof (gateway_token_in_split _ _ Hm) as Htok.
  exists output, line. repeat split; auto.
  - eapply split_tokens_nonempty; eauto.
  - eapply split_tokens_spaceless; eauto.
Qed.

Lemma get_default_gateway_sound_witness :
  exists output line,
    shell (posix_world (0%Z, ip_route_sample) NotLaunched) "ip route"
    = Exited 0 output
    /\ In line (splitlines output)
    /\ In "10.0.0.1" (split line)
    /\ spaceless "10.0.0.1" = true.
Proof.
  destruct (get_default_gateway_sound
              (posix_world (0%Z, ip_route_sample) NotLaunched)
              initial "10.0.0.1" eq_refl)
    as (output & line & H1 & H2 & _ & _ & H5 & _ & H7).
  exists output, line. repeat split; assumption.
Defined.

(* ================================================================== *)
(** ** More on the interface enumerator and the logon server resolver *)
(* ================================================================== *)

Lemma scan_addrs_sound (interface : string) (addrs : list snicaddr)
      (a i : string) :
  scan_addrs interface addrs = Some (a, i) ->
  i = interface
  /\ exists addr, In addr addrs /\ family addr = AF_INET
                  /\ address addr = a /\ startswith "127." a = false.
Proof.
  induction addrs as [|addr addrs IH]; cbn [scan_addrs]; [discriminate|].
  destruct (family_eqb (family addr) AF_INET) eqn:Hf; cbn [andb].
  - destruct (startswith "127." (address addr)) eqn:Hp; cbn [negb].
    + intros H. destruct (IH H) as (-> & x & Hin & Hx).
      split; [reflexivity|]. exists x. split; [now right|exact Hx].
    + intros [= <- <-]. split; [reflexivity|]. exists addr.
      repeat split; [now left| |assumption].
      destruct (family addr); (reflexivity || discriminate).
  - intros H. destruct (IH H) as (-> & x & Hin & Hx).
    split; [reflexivity|]. exists x. split; [now right|exact Hx].
Qed.

Lemma scan_interfaces_sound (items : list (string * list snicaddr))
      (a i : string) :
  scan_interfaces items = Some (a, i) ->
  exists addrs addr,
    In (i, addrs) items /\ In addr addrs /\ family addr = AF_INET
    /\ address addr = a /\ startswith "127." a = false.
Proof.
  induction items as [|[interface addrs] items IH];
    cbn [scan_interfaces]; [discriminate|].
  destruct (scan_addrs interface addrs) as [[a' i']|] eqn:Hs.
  - intros [= -> ->]. apply scan_addrs_sound in Hs as (-> & addr & Hin & Hx).
    exists addrs, addr. split; [now left|]. split; assumption.
  - intros H. destruct (IH H) as (addrs' & addr & Hin & Hx).
    exists addrs', addr. split; [now right|exact Hx].
Qed.

(** X3.  [get_ip_and_interface] asks for the interface table once and
    writes no field.  What it returns is either the pair ("N/A", "N/A")
    or an address that the table lists under the returned interface, of
    the IPv4 family, whose text does not begin with "127.": it never
    makes up a pair and never returns an IPv6 or a link address. *)
Theorem get_ip_and_interface_sound :
  forall (w : World) (st : State) (a i : string),
    outcome (get_ip_and_interface w st) = Ok (a, i) ->
    final (get_ip_and_interface w st) = logged st [EvNetIfAddrs]
    /\ ((a, i) = ("N/A", "N/A")
        \/ exists items addrs addr,
            net_if_addrs w = Ok items
            /\ In (i, addrs) items /\ In addr addrs
            /\ family addr = AF_INET /\ address addr = a
            /\ startswith "127." a = false).
Proof.
  intros w st a i. unfold outcome, final. rewrite get_ip_and_interface_run.
  cbn [fst snd]. unfold interface_outcome. intros [= H].
  split; [reflexivity|].
  destruct (net_if_addrs w) as [items|e]; [|now left].
  destruct (scan_interfaces items) as [[a' i']|] eqn:Hs; [|now left].
  injection H as -> ->. right.
  apply scan_interfaces_sound in Hs as (addrs & addr & Hx).
  now exists items, addrs, addr.
Qed.

Lemma get_ip_and_interface_sound_witness :
  ("10.0.0.7", "eth0") = ("N/A", "N/A")
  \/ exists items addrs addr,
      net_if_addrs no_route_world = Ok items
      /\ In ("eth0", addrs) items /\ In addr addrs
      /\ family addr = AF_INET /\ address addr = "10.0.0.7"
      /\ startswith "127." "10.0.0.7" = false.
Proof.
  exact (proj2 (get_ip_and_interface_sound no_route_world initial
                  "10.0.0.7" "eth0" eq_refl)).
Defined.

Lemma lstrip_blank (s : string) : blank s = true -> lstrip s = "".
Proof.
  induction s as [|c s IH]; cbn [blank lstrip]; [reflexivity|].
  intros H. apply andb_true_iff in H as [-> H]. auto.
Qed.

Lemma lstrip_head (s : string) :
  lstrip s = "" \/ exists c r, lstrip s = String c r /\ isspace c = false.
Proof.
  induction s as [|c s IH]; cbn [lstrip]; [now left|].
  destruct (isspace c) eqn:Hc; [exact IH|right; eauto].
Qed.

Lemma rstrip_idempotent (s : string) : rstrip (rstrip s) = rstrip s.
Proof.
  induction s as [|c s IH]; cbn [rstrip]; [reflexivity|].
  destruct (is_empty (rstrip s)) eqn:He; cbn [andb].
  - destruct (isspace c) eqn:Hc; [reflexivity|].
    cbn [rstrip]. now rewrite IH, He, Hc.
  - cbn [rstrip]. now rewrite IH, He.
Qed.

Lemma strip_idempotent (s : string) : strip (strip s) = strip s.
Proof.
  unfold strip.
  destruct (lstrip_head s) as [-> | (c & r & -> & Hc)]; [reflexivity|].
  assert (rstrip (String c r) = String c (rstrip r)) as Hr
    by (cbn [rstrip]; now rewrite Hc, andb_false_r).
  rewrite Hr. cbn [lstrip]. rewrite Hc.
  cbn [rstrip]. now rewrite rstrip_idempotent, Hc, andb_false_r.
Qed.

(** X4.  Off Windows [get_logon_server] starts no process and leaves the
    state as it was; on Windows it runs the one shell command
    "echo %logonserver%".  What it returns on exit status 0 is trimmed on
    both sides (trimming it again changes nothing), and it is the empty
    string, not "N/A", when the command printed white space only. *)
Theorem get_logon_server_effects :
  forall (w : World) (st : State),
    (on_windows w = false -> final (get_logon_server w st) = st)
    /\ (on_windows w = true ->
        final (get_logon_server w st) = logged st [EvShell "echo %logonserver%"])
    /\ (on_windows w = true ->
        forall out,
          shell w "echo %logonserver%" = Exited 0 out ->
          exists r, outcome (get_logon_server w st) = Ok r
                    /\ strip r = r
                    /\ (blank out = true -> r = "")).
Proof.
  intros w st. unfold final, outcome. rewrite get_logon_server_run.
  cbn [fst snd]. unfold logon_events, logon_outcome.
  split; [|split].
  - intros ->. apply logged_nil.
  - now intros ->.
  - intros -> out ->. exists (strip out). cbn.
    split; [reflexivity|split; [apply strip_idempotent|]].
    intros Hb. unfold strip. now rewrite lstrip_blank.
Qed.

Lemma get_logon_server_effects_witness :
  final (get_logon_server no_route_world initial) = initial
  /\ exists r,
      outcome (get_logon_server
                 (windows_world (0%Z, "") (0%Z, "  " ++ nl)%string NotLaunched)
                 initial) = Ok r
      /\ strip r = r
      /\ (blank ("  " ++ nl) = true -> r = "").
Proof.
  split.
  - exact (proj1 (get_logon_server_effects no_route_world initial) eq_refl).
  - exact (proj2 (proj2 (get_logon_server_effects
                    (windows_world (0%Z, "") (0%Z, "  " ++ nl)%string NotLaunched)
                    initial)) eq_refl ("  " ++ nl)%string eq_refl).
Defined.

(* ================================================================== *)
(** ** More on [check_connection] *)
(* ================================================================== *)

Lemma dns_step_fields (w : World) (st : State) (d : string) :
  dns_outcome w "google.com" = Ok d ->
  shown_fields (fst (dns_step w st))
  = (ip_result st, interface_result st, logon_server_result st,
     gw_result st, ("DNS google.com: " ++ d)%string).
Proof. unfold dns_step; intros ->; reflexivity. Qed.

(** X5.  When [check_connection] runs to its end, the IP, interface,
    logon server and DNS fields show what the four resolvers returned,
    each after its label, and all five fields are written anew: what the
    display shows afterwards does not depend on what it showed before. *)
Theorem check_connection_fields :
  forall (w : World) (st : State) (gateway : option string)
         (a i logon d : string),
    outcome (get_default_gateway w st) = Ok gateway ->
    (forall g, gateway = Some g -> exec w (ping_command w g) <> NotLaunched) ->
    outcome (get_ip_and_interface w st) = Ok (a, i) ->
    outcome (get_logon_server w st) = Ok logon ->
    outcome (dns_query w "google.com" st) = Ok d ->
    ip_result (final (check_connection w st)) = ("IP: " ++ a)%string
    /\ interface_result (final (check_connection w st)) = ("Interface: " ++ i)%string
    /\ logon_server_result (final (check_connection w st))
       = ("Logon Server: " ++ logon)%string
    /\ dns_result (final (check_connection w st)) = ("DNS google.com: " ++ d)%string
    /\ forall st',
        shown_fields (final (check_connection w st'))
        = shown_fields (final (check_connection w st)).
Proof.
  intros w st gateway a i logon d Hgw Hexec Hip Hlogon Hdns.
  unfold outcome in *.
  rewrite get_default_gateway_run in Hgw. rewrite get_ip_and_interface_run in Hip.
  rewrite get_logon_server_run in Hlogon. rewrite dns_query_run in Hdns.
  cbn [snd] in *. injection Hip as Hip.
  assert (forall s, shown_fields (final (check_connection w s))
                    = (("IP: " ++ a)%string, ("Interface: " ++ i)%string,
                       ("Logon Server: " ++ logon)%string,
                       match gateway with
                       | Some g =>
                           match ping_outcome w g with
                           | Ok p => ("Gateway (" ++ g ++ "):" ++ nl ++ p)%string
                           | Raise _ => ""
                           end
                       | None => "Gateway not found"
                       end,
                       ("DNS google.com: " ++ d)%string)) as Hall.
  { intros s. unfold final. rewrite check_connection_run, Hgw, Hlogon, Hip.
    cbv zeta. cbn [fst snd].
    destruct gateway as [g|].
    - rewrite (gateway_outcome_nonempty w g Hgw).
      specialize (Hexec g eq_refl). unfold ping_outcome.
      destruct (exec w (ping_command w g)) as [rc captured|]; [|congruence].
      destruct (rc =? 0)%Z; now rewrite (dns_step_fields w _ d Hdns).
    - now rewrite (dns_step_fields w _ d Hdns). }
  pose proof (Hall st) as Hst. unfold shown_fields in Hst at 1.
  injection Hst as H1 H2 H3 _ H5.
  repeat split; auto.
  intros st'. now rewrite !Hall.
Qed.

Lemma check_connection_fields_witness :
  ip_result (final (check_connection timed_out_world initial)) = "IP: 192.168.1.20"
  /\ interface_result (final (check_connection timed_out_world initial))
     = "Interface: Ethernet"
  /\ logon_server_result (final (check_connection timed_out_world initial))
     = "Logon Server: %logonserver%"
  /\ dns_result (final (check_connection timed_out_world initial))
     = "DNS google.com: DNS resolution failed"
  /\ forall st',
      shown_fields (final (check_connection timed_out_world st'))
      = shown_fields (final (check_connection timed_out_world initial)).
Proof.
  apply (check_connection_fields timed_out_world initial (Some "192.168.1.1")
           "192.168.1.20" "Ethernet" "%logonserver%" "DNS resolution failed");
    try reflexivity.
  intros g _. discriminate.
Defined.

(** X6.  When the command interpreter cannot be started,
    [check_connection] stops at its first step: the [OSError] leaves it,
    the one command of the gateway resolver is all it tried, and none of
    the five fields is written. *)
Theorem check_connection_stops_without_interpreter :
  forall (w : World) (st : State),
    interpreter w = None ->
    outcome (check_connection w st) = Raise OSError
    /\ trace (final (check_connection w st))
       = trace st ++ [EvShell (gateway_command w)]
    /\ shown_fields (final (check_connection w st)) = shown_fields st.
Proof.
  intros w st Hnone. unfold outcome, final. rewrite check_connection_run.
  unfold gateway_outcome, shell. rewrite Hnone. cbn [fst snd].
  repeat split.
Qed.

Lemma check_connection_stops_without_interpreter_witness :
  outcome (check_connection
             (mk_World "Windows" None (fun _ => NotLaunched) (Ok [])
                       (fun _ => Raise OSError)) initial)
  = Raise OSError.
Proof.
  exact (proj1 (check_connection_stops_without_interpreter
                  (mk_World "Windows" None (fun _ => NotLaunched) (Ok [])
                            (fun _ => Raise OSError)) initial eq_refl)).
Defined.

(** X7.  When a gateway was found but the ping program cannot be started,
    [check_connection] ends with the [OSError] half way: the IP, interface
    and logon server fields are already written, the gateway and DNS
    fields keep what they showed before, and the name lookup is never
    made. *)
Theorem check_connection_half_written_without_ping :
  forall (w : World) (st : State) (g a i logon : string),
    outcome (get_default_gateway w st) = Ok (Some g) ->
    exec w (ping_command w g) = NotLaunched ->
    outcome (get_ip_and_interface w st) = Ok (a, i) ->
    outcome (get_logon_server w st) = Ok logon ->
    outcome (check_connection w st) = Raise OSError
    /\ shown_fields (final (check_connection w st))
       = (("IP: " ++ a)%string, ("Interface: " ++ i)%string,
          ("Logon Server: " ++ logon)%string, gw_result st, dns_result st)
    /\ trace (final (check_connection w st))
       = trace st
         ++ [EvShell (gateway_command w); EvNetIfAddrs]
         ++ (if on_windows w then [EvShell "echo %logonserver%"] else [])
         ++ [EvExec (ping_command w g)].
Proof.
  intros w st g a i logon Hgw Hexec Hip Hlogon. unfold outcome in *.
  rewrite get_default_gateway_run in Hgw. rewrite get_ip_and_interface_run in Hip.
  rewrite get_logon_server_run in Hlogon. cbn [snd] in *. injection Hip as Hip.
  unfold final. rewrite check_connection_run, Hgw, Hlogon, Hip.
  rewrite (gateway_outcome_nonempty w g Hgw). cbv zeta.
  unfold ping_outcome. rewrite Hexec. cbn [fst snd].
  split; [reflexivity|split; [reflexivity|]].
  unfold resolver_events, logon_events. state_norm. reflexivity.
Qed.

Lemma check_connection_half_written_without_ping_witness :
  outcome (check_connection no_ping_world initial) = Raise OSError
  /\ shown_fields (final (check_connection no_ping_world initial))
     = ("IP: 192.168.1.20", "Interface: Ethernet", "Logon Server: ", "", "").
Proof.
  pose proof (check_connection_half_written_without_ping no_ping_world initial
                "192.168.1.1" "192.168.1.20" "Ethernet" ""
                eq_refl eq_refl eq_refl eq_refl) as (H1 & H2 & _).
  split; [exact H1|exact H2].
Defined.

(* ================================================================== *)
(** ** More on the probe summariser and the status tests *)
(* ================================================================== *)

Lemma scan_ping_posix_first (pre post : list string) (line : string) :
  Forall (fun l => posix_marker l = false) pre ->
  posix_marker line = true ->
  scan_ping_posix (pre ++ line :: post) = Some (strip line).
Proof.
  unfold posix_marker.
  induction 1 as [|l pre Hl _ IH]; intros Hm; cbn [app scan_ping_posix].
  - now rewrite Hm.
  - rewrite Hl. auto.
Qed.

Lemma scan_ping_windows_sound (lines : list string) (r : string) :
  scan_ping_windows lines = Some r ->
  exists line, In line lines /\ windows_marker line = true /\ r = strip line.
Proof.
  unfold windows_marker.
  induction lines as [|l lines IH]; cbn [scan_ping_windows]; [discriminate|].
  destruct (contains "Reply from" l || contains "Request timed out" l) eqn:H1.
  - intros [= <-]. exists l.
    split; [now left|split; [now rewrite H1|reflexivity]].
  - destruct (contains "Packets:" l) eqn:H2.
    + intros [= <-]. exists l.
      split; [now left|split; [now rewrite H1, H2|reflexivity]].
    + intros H. destruct (IH H) as (line & Hin & Hm). exists line.
      split; [now right|exact Hm].
Qed.

Lemma scan_ping_posix_sound (lines : list string) (r : string) :
  scan_ping_posix lines = Some r ->
  exists line, In line lines /\ posix_marker line = true /\ r = strip line.
Proof.
  unfold posix_marker.
  induction lines as [|l lines IH]; cbn [scan_ping_posix]; [discriminate|].
  destruct (contains "bytes from" (lower l)) eqn:H1.
  - intros [= <-]. exists l.
    split; [now left|split; [exact H1|reflexivity]].
  - intros H. destruct (IH H) as (line & Hin & Hm). exists line.
    split; [now right|exact Hm].
Qed.

(** X8.  On either platform, text that holds no "Ping failed" and no
    "timeout" is summarised by its first marker line, trimmed, and the
    lines after it are not looked at: on Windows the first line with
    "Reply from", "Request timed out" or "Packets:", elsewhere the first
    line with "bytes from" in any letter case. *)
Theorem parse_ping_output_first_marker_line :
  forall (w : World) (ping_output : string)
         (pre post : list string) (line : string),
    contains "Ping failed" ping_output = false ->
    contains "timeout" (lower ping_output) = false ->
    split_on LF ping_output = pre ++ line :: post ->
    Forall (fun l => marker w l = false) pre ->
    marker w line = true ->
    _parse_ping_output w ping_output = strip line.
Proof.
  intros w text pre post line Hp Ht Hsplit Hpre Hline.
  unfold _parse_ping_output. rewrite Hp, Ht, Hsplit. cbn [orb].
  unfold marker in *. destruct (on_windows w).
  - now rewrite scan_ping_windows_first.
  - now rewrite scan_ping_posix_first.
Qed.

Lemma parse_ping_output_first_marker_line_witness :
  _parse_ping_output no_route_world posix_reply_sample
  = "64 bytes from 10.0.0.1: icmp_seq=1 ttl=64 time=0.41 ms".
Proof.
  apply (parse_ping_output_first_marker_line no_route_world posix_reply_sample
           ["PING 10.0.0.1 (10.0.0.1) 56(84) bytes of data."]
           ["1 packets transmitted, 1 received, 0% packet loss"; ""]
           "64 bytes from 10.0.0.1: icmp_seq=1 ttl=64 time=0.41 ms");
    try reflexivity.
  repeat constructor.
Defined.

(** X9.  Whatever the text, the summary is the text itself, or the word
    "Success", or one marker line of the text, trimmed: the summariser
    never shows anything else. *)
Theorem parse_ping_output_range :
  forall (w : World) (ping_output : string),
    _parse_ping_output w ping_output = ping_output
    \/ _parse_ping_output w ping_output = "Success"
    \/ exists line,
        In line (split_on LF ping_output)
        /\ marker w line = true
        /\ _parse_ping_output w ping_output = strip line.
Proof.
  intros w text. unfold _parse_ping_output, marker.
  destruct (contains "Ping failed" text || contains "timeout" (lower text));
    [now left|right].
  destruct (on_windows w).
  - destruct (scan_ping_windows (split_on LF text)) as [r|] eqn:Hs; [|now left].
    right. apply scan_ping_windows_sound in Hs as (line & Hin & Hm & ->).
    now exists line.
  - destruct (scan_ping_posix (split_on LF text)) as [r|] eqn:Hs; [|now left].
    right. apply scan_ping_posix_sound in Hs as (line & Hin & Hm & ->).
    now exists line.
Qed.

Lemma startswith_first_char (p s : string) (c d : ascii) :
  c <> d -> startswith (String c p) (String d s) = false.
Proof.
  intros Hcd. unfold startswith. cbn [String.prefix].
  destruct (ascii_dec c d); [contradiction|reflexivity].
Qed.

(** X10.  The two status tests of [_update_results] read the same kind of
    text differently.  Text that begins with "64 bytes" and has no
    "Reply from" is a success for the internet node and a failure for a
    found gateway.  Text that begins with "PING", as the output of a POSIX
    [ping] does, and has no "Reply from" is a failure for both, whatever
    reply lines follow its first line. *)
Theorem status_tests_on_posix_text :
  forall (text g : string),
    g <> "" ->
    contains "Reply from" text = false ->
    (startswith "64 bytes" text = true ->
     internet_status text = "success" /\ gw_status (Some g) text = "failure")
    /\ (startswith "PING" text = true ->
        internet_status text = "failure" /\ gw_status (Some g) text = "failure").
Proof.
  intros text g Hg Hr.
  assert (gw_status (Some g) text = "failure") as Hgw
    by (unfold gw_status, gateway_truthy; now rewrite Hr, (truthy_nonempty g Hg)).
  unfold internet_status. rewrite Hr. cbn [orb]. split.
  - now intros ->.
  - intros Hping. split; [|exact Hgw].
    destruct text as [|d text]; [discriminate|].
    destruct (ascii_dec "P" d) as [<-|Hd].
    + now rewrite startswith_first_char.
    + now rewrite startswith_first_char in Hping.
Qed.

Lemma status_tests_on_posix_text_witness :
  (internet_status "64 bytes from 8.8.8.8: icmp_seq=1" = "success"
   /\ gw_status (Some "10.0.0.1") "64 bytes from 8.8.8.8: icmp_seq=1" = "failure")
  /\ internet_status posix_reply_sample = "failure"
  /\ gw_status (Some "10.0.0.1") posix_reply_sample = "failure".
Proof.
  assert ("10.0.0.1" <> "") as Hg by discriminate.
  split.
  - exact (proj1 (status_tests_on_posix_text
                    "64 bytes from 8.8.8.8: icmp_seq=1" "10.0.0.1" Hg eq_refl)
                 eq_refl).
  - exact (proj2 (status_tests_on_posix_text posix_reply_sample "10.0.0.1"
                    Hg eq_refl) eq_refl).
Defined.

(* ================================================================== *)
(** ** The GUI class: the map, the reset and the check cycle *)
(* ================================================================== *)

Import NetworkCheckerGUI.

Lemma dict_get_unknown_key (status : string) :
  known_status status = false ->
  dict_get colors status "#6b7280" = "#6b7280"
  /\ _get_status_text status = _get_status_text "unknown".
Proof.
  unfold known_status, _get_status_text, colors, status_map. cbn [dict_get].
  intros H. apply orb_false_iff in H as [H H3].
  apply orb_false_iff in H as [H1 H2].
  rewrite H1, H2, H3. split; reflexivity.
Qed.

Lemma draw_topology_map_canvas (gw internet dc : string) (s : Widgets) :
  canvas (_draw_topology_map gw internet dc s)
  = [Line 160 100 265 100 (dict_get colors gw "#6b7280") 3 "last" (10, 12, 5)%Z;
     Line 385 80 490 70 (dict_get colors internet "#6b7280") 3 "last" (10, 12, 5)%Z;
     Line 385 120 490 130 (dict_get colors dc "#6b7280") 3 "last" (10, 12, 5)%Z;
     Oval 40 75 160 125 "#3b82f6" "white" 2;
     Text 100 100 "Host" "white" ("Arial", 10%Z, ["bold"]);
     Oval 265 75 385 125 "#8b5cf6" "white" 2;
     Text 325 100 "Gateway" "white" ("Arial", 10%Z, ["bold"]);
     Oval 490 25 610 75 (dict_get colors internet "#6b7280") "white" 2;
     Text 550 50 "Internet" "white" ("Arial", 10%Z, ["bold"]);
     Oval 490 125 610 175 (dict_get colors dc "#6b7280") "white" 2;
     Text 550 150 ("Domain" ++ nl ++ "Controller") "white" ("Arial", 10%Z, ["bold"]);
     Text 100 140 "Active" "#4ade80" ("Arial", 8%Z, []);
     Text 325 140 (_get_status_text gw) (dict_get colors gw "#6b7280")
          ("Arial", 8%Z, []);
     Text 550 90 (_get_status_text internet) (dict_get colors internet "#6b7280")
          ("Arial", 8%Z, []);
     Text 550 190 (_get_status_text dc) (dict_get colors dc "#6b7280")
          ("Arial", 8%Z, [])].
Proof. reflexivity. Qed.

(** X11.  [_draw_topology_map] replaces the picture: whatever the canvas
    held, it holds afterwards the same 15 items for the same three
    statuses, all of them on the canvas of 650 by 200.  A status that is
    none of "success", "failure" and "unknown" is drawn exactly as
    "unknown" is, in colour and in text. *)
Theorem draw_topology_map_replaces_picture :
  forall (gw internet dc : string) (s s' : Widgets),
    canvas (_draw_topology_map gw internet dc s)
    = canvas (_draw_topology_map gw internet dc s')
    /\ List.length (canvas (_draw_topology_map gw internet dc s)) = 15
    /\ forallb (on_canvas 650 200) (canvas (_draw_topology_map gw internet dc s))
       = true
    /\ (forall other,
           known_status other = false ->
           canvas (_draw_topology_map other internet dc s)
           = canvas (_draw_topology_map "unknown" internet dc s)
           /\ canvas (_draw_topology_map gw other dc s)
              = canvas (_draw_topology_map gw "unknown" dc s)
           /\ canvas (_draw_topology_map gw internet other s)
              = canvas (_draw_topology_map gw internet "unknown" s)).
Proof.
  intros gw internet dc s s'. rewrite !draw_topology_map_canvas.
  split; [reflexivity|split; [reflexivity|split; [reflexivity|]]].
  intros other Hother. rewrite !draw_topology_map_canvas.
  destruct (dict_get_unknown_key other Hother) as [-> ->].
  repeat split.
Qed.

Lemma draw_topology_map_replaces_picture_witness :
  canvas (_draw_topology_map "timeout" "success" "failure" after_init)
  = canvas (_draw_topology_map "unknown" "success" "failure" after_init).
Proof.
  exact (proj1 (proj2 (proj2 (proj2
           (draw_topology_map_replaces_picture "success" "success" "failure"
              after_init after_init))) "timeout" eq_refl)).
Defined.

(** X12.  [reset_app] brings the window back to what a new window shows:
    the five fields empty, the label "Ready" in gray and the map with
    every status unknown, whatever was shown before.  It does not touch
    the flag, the buttons, the waiting calls or the dialogs. *)
Theorem reset_app_restores_display :
  forall (s : Widgets),
    display (reset_app s) = display after_init
    /\ is_checking (reset_app s) = is_checking s
    /\ check_button (reset_app s) = check_button s
    /\ reset_button (reset_app s) = reset_button s
    /\ after_queue (reset_app s) = after_queue s
    /\ dialogs (reset_app s) = dialogs s
    /\ threads_started (reset_app s) = threads_started s.
Proof. intros s. repeat split. Qed.

(** X13.  A call of [start_check] while no check runs sets the flag,
    disables both buttons, clears the display and starts one thread; the
    label then reads "Ready" in gray, not "Running diagnostics...",
    because the reset comes after the label was set.  A second call
    before the check completes only logs a warning: it starts no thread
    and changes nothing else. *)
Theorem start_check_once :
  forall (s : Widgets),
    is_checking s = false ->
    is_checking (start_check s) = true
    /\ check_button (start_check s) = ("disabled", "Checking...")
    /\ reset_button (start_check s) = "disabled"
    /\ display (start_check s) = display after_init
    /\ status_label (start_check s) = ("Ready", "gray")
    /\ threads_started (start_check s) = S (threads_started s)
    /\ start_check (start_check s)
       = logger WARNING "Check already in progress" (start_check s).
Proof.
  intros s Hs.
  assert (start_check s
          = start_thread
              (reset_app
                 (configure_status "Running diagnostics..." "yellow"
                    (configure_reset_button "disabled"
                       (configure_check_button "disabled" "Checking..."
                          (set_is_checking true
                             (logger INFO "Starting network check" s)))))))
    as Hrun by (unfold start_check; rewrite Hs; reflexivity).
  assert (is_checking (start_check s) = true) as Hflag
    by (rewrite Hrun; reflexivity).
  split; [exact Hflag|].
  split; [rewrite Hrun; reflexivity|].
  split; [rewrite Hrun; reflexivity|].
  split; [rewrite Hrun; reflexivity|].
  split; [rewrite Hrun; reflexivity|].
  split; [rewrite Hrun; reflexivity|].
  unfold start_check at 1. rewrite Hflag. reflexivity.
Qed.

Lemma start_check_once_witness :
  status_label (start_check after_init) = ("Ready", "gray")
  /\ threads_started (start_check after_init) = S (threads_started after_init)
  /\ start_check (start_check after_init)
     = logger WARNING "Check already in progress" (start_check after_init).
Proof.
  assert (is_checking after_init = false) as H0 by reflexivity.
  pose proof (start_check_once after_init H0) as H.
  destruct H as (_ & _ & _ & _ & H5 & H6 & H7).
  split; [exact H5|split; [exact H6|exact H7]].
Defined.

Lemma run_callback_frame (w : World) (cb : callback) (s : Widgets) :
  after_queue (run_callback w cb s) = after_queue s
  /\ threads_started (run_callback w cb s) = threads_started s.
Proof.
  destruct cb as [results| |]; [|split; reflexivity|split; reflexivity].
  cbn [run_callback]. unfold _update_results.
  destruct (gateway results) as [g|]; [destruct (truthy g)|]; split; reflexivity.
Qed.

Lemma fold_callbacks_frame (w : World) (q : list callback) (s : Widgets) :
  after_queue (fold_left (fun s cb => run_callback w cb s) q s) = after_queue s
  /\ threads_started (fold_left (fun s cb => run_callback w cb s) q s)
     = threads_started s.
Proof.
  revert s; induction q as [|cb q IH]; intros s; cbn [fold_left]; [now split|].
  destruct (IH (run_callback w cb s)) as [-> ->]. apply run_callback_frame.
Qed.

Lemma run_check_queue (run_all_checks : checks) (s : Widgets) :
  after_queue (_run_check run_all_checks s)
  = after_queue s ++ [first_callback run_all_checks; Cb_check_complete].
Proof.
  destruct run_all_checks; unfold _run_check, root_after;
    cbn [after_queue set_after_queue logger first_callback];
    now rewrite <- app_assoc.
Qed.

Lemma run_pending_ends_with_complete (w : World) (s : Widgets)
      (q : list callback) :
  after_queue s = q ++ [Cb_check_complete] ->
  run_pending w s
  = _check_complete
      (fold_left (fun s cb => run_callback w cb s) q (set_after_queue [] s)).
Proof.
  intros Hq. unfold run_pending. rewrite Hq, fold_left_app. reflexivity.
Qed.

(** X14.  One check from the click to the end: [start_check], then the
    worker [_run_check], then the main loop running what the worker
    handed over.  Whether [run_all_checks] returns a report or raises,
    the flag is off again, both buttons are enabled, the check button
    reads "Check Connection" and nothing is left waiting; one thread was
    started. *)
Theorem check_cycle_reenables_buttons :
  forall (w : World) (run_all_checks : checks) (s : Widgets),
    is_checking s = false ->
    let s' := run_pending w (_run_check run_all_checks (start_check s)) in
    is_checking s' = false
    /\ check_button s' = ("normal", "Check Connection")
    /\ reset_button s' = "normal"
    /\ after_queue s' = []
    /\ threads_started s' = S (threads_started s).
Proof.
  intros w run s Hs s'. subst s'.
  rewrite (run_pending_ends_with_complete w _
             (after_queue (start_check s) ++ [first_callback run]))
    by (rewrite run_check_queue, <- app_assoc; reflexivity).
  split; [reflexivity|split; [reflexivity|split; [reflexivity|]]].
  cbn [_check_complete after_queue threads_started configure_reset_button
       configure_check_button set_is_checking].
  destruct (fold_callbacks_frame w
              (after_queue (start_check s) ++ [first_callback run])
              (set_after_queue [] (_run_check run (start_check s)))) as [-> ->].
  split; [reflexivity|].
  transitivity (threads_started (start_check s)).
  - destruct run; reflexivity.
  - unfold start_check. rewrite Hs. reflexivity.
Qed.

Lemma check_cycle_reenables_buttons_witness :
  is_checking (run_pending no_route_world
                 (_run_check (Raised "no network") (start_check after_init)))
  = false
  /\ check_button (run_pending no_route_world
                     (_run_check (Raised "no network") (start_check after_init)))
     = ("normal", "Check Connection").
Proof.
  assert (is_checking after_init = false) as H0 by reflexivity.
  pose proof (check_cycle_reenables_buttons no_route_world (Raised "no network")
                after_init H0) as H.
  cbv zeta in H. destruct H as (H1 & H2 & _).
  split; [exact H1|exact H2].
Defined.

Lemma start_check_idle (s : Widgets) :
  is_checking s = false ->
  start_check s
  = start_thread
      (reset_app
         (configure_status "Running diagnostics..." "yellow"
            (configure_reset_button "disabled"
               (configure_check_button "disabled" "Checking..."
                  (set_is_checking true
                     (logger INFO "Starting network check" s)))))).
Proof. intros Hs. unfold start_check. now rewrite Hs. Qed.

Lemma run_pending_two (w : World) (s : Widgets) (a b : callback) :
  after_queue s = [a; b] ->
  run_pending w s
  = run_callback w b (run_callback w a (set_after_queue [] s)).
Proof. intros Hq. unfold run_pending. now rewrite Hq. Qed.

Lemma check_cycle_unfold (w : World) (run_all_checks : checks) (s : Widgets) :
  is_checking s = false ->
  after_queue s = [] ->
  run_pending w (_run_check run_all_checks (start_check s))
  = _check_complete
      (run_callback w (first_callback run_all_checks)
         (set_after_queue [] (_run_check run_all_checks (start_check s)))).
Proof.
  intros Hs Hq.
  rewrite (run_pending_two w _ (first_callback run_all_checks) Cb_check_complete);
    [reflexivity|].
  rewrite run_check_queue, (start_check_idle s Hs).
  cbn [after_queue start_thread reset_app _draw_topology_map
       _draw_status_indicator _draw_node create set_canvas configure_status
       set_dns_result set_gw_result set_logon_server_result
       set_interface_result set_ip_result logger configure_reset_button
       configure_check_button set_is_checking].
  now rewrite Hq.
Qed.

(** X15.  When [run_all_checks] raises, the check that was started with
    nothing waiting ends with the label "Error: Error: " followed by the
    text of the exception, in red (the prefix is put once by the worker
    and once by [_show_error]), with one error dialog whose message is
    "Error: " and that text, with the five fields empty and the map all
    unknown, and with the error in the log. *)
Theorem check_cycle_on_exception :
  forall (w : World) (message : string) (s : Widgets),
    is_checking s = false ->
    after_queue s = [] ->
    let s' := run_pending w (_run_check (Raised message) (start_check s)) in
    status_label s' = (("Error: Error: " ++ message)%string, "red")
    /\ dialogs s'
       = dialogs s ++ [("Network Check Error", ("Error: " ++ message)%string)]
    /\ (ip_result s', interface_result s', logon_server_result s',
        gw_result s', dns_result s') = ("", "", "", "", "")
    /\ canvas s' = canvas after_init
    /\ log s'
       = log s ++ [(INFO, "Starting network check");
                   (DEBUG, "Resetting display");
                   (ERROR, ("Error during network check: " ++ message)%string)].
Proof.
  intros w message s Hs Hq s'. subst s'.
  rewrite (check_cycle_unfold w _ s Hs Hq), (start_check_idle s Hs).
  cbn [first_callback run_callback].
  split; [reflexivity|split; [reflexivity|split; [reflexivity|split]]].
  - reflexivity.
  - cbn. now rewrite <- !app_assoc.
Qed.

Lemma check_cycle_on_exception_witness :
  status_label (run_pending no_route_world
                  (_run_check (Raised "no network") (start_check after_init)))
  = (("Error: Error: " ++ "no network")%string, "red").
Proof.
  assert (is_checking after_init = false) as H0 by reflexivity.
  assert (after_queue after_init = []) as H1 by reflexivity.
  pose proof (check_cycle_on_exception no_route_world "no network"
                after_init H0 H1) as H.
  cbv zeta in H. exact (proj1 H).
Defined.

Lemma update_results_display (w : World) (results : Report) (s s0 : Widgets) :
  display (_update_results w results s) = display (_update_results w results s0).
Proof.
  unfold _update_results.
  destruct (gateway results) as [g|]; [destruct (truthy g)|]; reflexivity.
Qed.

(** X16.  When [run_all_checks] returns a report, the check that was
    started with nothing waiting ends with the label
    "Check completed successfully" in green and no dialog; the IP,
    interface and logon server fields show the report's values after
    their labels, and everything the window shows is what
    [_update_results] makes of the report alone, whatever was shown
    before the click. *)
Theorem check_cycle_on_report :
  forall (w : World) (results : Report) (s : Widgets),
    is_checking s = false ->
    after_queue s = [] ->
    let s' := run_pending w (_run_check (Returned results) (start_check s)) in
    status_label s' = ("Check completed successfully", "green")
    /\ dialogs s' = dialogs s
    /\ ip_result s' = ("IP Address: " ++ ip results)%string
    /\ interface_result s' = ("Network Interface: " ++ interface results)%string
    /\ logon_server_result s' = ("Logon Server: " ++ logon_server results)%string
    /\ display s' = display (_update_results w results after_init).
Proof.
  intros w results s Hs Hq s'. subst s'.
  rewrite (check_cycle_unfold w _ s Hs Hq), (start_check_idle s Hs).
  cbn [first_callback run_callback].
  assert (forall t, display (_check_complete t) = display t) as Hd by reflexivity.
  rewrite Hd, (update_results_display w results _ after_init).
  unfold _update_results.
  destruct (gateway results) as [g|]; [destruct (truthy g)|]; repeat split.
Qed.

Lemma check_cycle_on_report_witness :
  status_label (run_pending no_route_world
                  (_run_check (Returned sample_report) (start_check after_init)))
  = ("Check completed successfully", "green")
  /\ ip_result (run_pending no_route_world
                  (_run_check (Returned sample_report) (start_check after_init)))
     = ("IP Address: " ++ ip sample_report)%string.
Proof.
  assert (is_checking after_init = false) as H0 by reflexivity.
  assert (after_queue after_init = []) as H1 by reflexivity.
  pose proof (check_cycle_on_report no_route_world sample_report
                after_init H0 H1) as H.
  cbv zeta in H. destruct H as (H2 & _ & H3 & _).
  split; [exact H2|exact H3].
Defined.

Lemma update_results_canvas (w : World) (results : Report) (s : Widgets) :
  canvas (_update_results w results s)
  = canvas (_draw_topology_map
              (gw_status (gateway results) (gateway_ping results))
              (internet_status match internet_ping results with
                               | Some text => text
                               | None => "Not checked"
                               end)
              (dc_status (logon_server results)) s).
Proof.
  unfold _update_results.
  destruct (gateway results) as [g|]; [destruct (truthy g)|]; reflexivity.
Qed.

(** X17.  What [_update_results] makes of the parts of a report that are
    missing or are sentinels.  With no gateway (or an empty one) the
    field reads "Gateway: Not found", the gateway is drawn as unknown and
    the text of the gateway probe is not looked at.  With no
    'internet_ping' in the report the internet node is drawn as a
    failure, not as unknown.  With any logon server text other than the
    empty one and "Not available", the sentinel "N/A" included, the
    domain controller is drawn as connected. *)
Theorem update_results_missing_parts :
  forall (w : World) (results : Report) (s : Widgets),
    (gateway_truthy (gateway results) = false ->
     gw_result (_update_results w results s) = "Gateway: Not found"
     /\ canvas (_update_results w results s)
        = canvas (_draw_topology_map
                    "unknown"
                    (internet_status match internet_ping results with
                                     | Some text => text
                                     | None => "Not checked"
                                     end)
                    (dc_status (logon_server results)) s)
     /\ forall text,
         display (_update_results w (with_gateway_ping text results) s)
         = display (_update_results w results s))
    /\ (internet_ping results = None ->
        canvas (_update_results w results s)
        = canvas (_draw_topology_map
                    (gw_status (gateway results) (gateway_ping results))
                    "failure"
                    (dc_status (logon_server results)) s))
    /\ (logon_server results <> "" ->
        logon_server results <> "Not available" ->
        canvas (_update_results w results s)
        = canvas (_draw_topology_map
                    (gw_status (gateway results) (gateway_ping results))
                    (internet_status match internet_ping results with
                                     | Some text => text
                                     | None => "Not checked"
                                     end)
                    "success" s)).
Proof.
  intros w results s. split; [|split].
  - intros Hg. rewrite update_results_canvas.
    unfold _update_results, with_gateway_ping, gw_status.
    cbn [gateway gateway_ping ip interface logon_server internet_ping dns_results].
    rewrite Hg. unfold gateway_truthy in Hg.
    destruct (gateway results) as [g|]; [rewrite Hg|]; repeat split.
  - intros Hi. rewrite update_results_canvas, Hi. reflexivity.
  - intros H1 H2. rewrite update_results_canvas. unfold dc_status.
    rewrite (truthy_nonempty _ H1).
    destruct (String.eqb_spec (logon_server results) "Not available");
      [contradiction|reflexivity].
Qed.

Lemma update_results_missing_parts_witness :
  canvas (_update_results no_route_world sample_report after_init)
  = canvas (_draw_topology_map
              (gw_status (gateway sample_report) (gateway_ping sample_report))
              "failure"
              (dc_status (logon_server sample_report)) after_init)
  /\ canvas (_update_results no_route_world sample_report after_init)
     = canvas (_draw_topology_map
                 (gw_status (gateway sample_report) (gateway_ping sample_report))
                 (internet_status "Not checked")
                 "success" after_init).
Proof.
  pose proof (update_results_missing_parts no_route_world sample_report after_init)
    as (_ & H2 & H3).
  split.
  - exact (H2 eq_refl).
  - apply H3; discriminate.
Defined.

Lemma append_assoc (a b c : string) : ((a ++ b) ++ c = a ++ (b ++ c))%string.
Proof. induction a as [|x a IH]; cbn [append]; [reflexivity|now rewrite IH]. Qed.

Lemma append_empty_r (a : string) : (a ++ "")%string = a.
Proof. induction a as [|x a IH]; cbn [append]; [reflexivity|now rewrite IH]. Qed.

Lemma dns_lines_block (items : list (string * string)) (text : string) :
  dns_lines items text = (text ++ dns_block items)%string.
Proof.
  revert text; induction items as [|[server result] items IH]; intros text;
    cbn [dns_lines dns_block].
  - now rewrite append_empty_r.
  - rewrite IH. unfold dns_line. now rewrite !append_assoc.
Qed.

Lemma dns_block_app (items rest : list (string * string)) :
  dns_block (items ++ rest) = (dns_block items ++ dns_block rest)%string.
Proof.
  induction items as [|[server result] items IH]; cbn [app dns_block];
    [reflexivity|].
  now rewrite IH, !append_assoc.
Qed.

Lemma rstrip_blank (t : string) : blank t = true -> rstrip t = "".
Proof.
  induction t as [|c t IH]; cbn [blank rstrip]; [reflexivity|].
  intros H. apply andb_true_iff in H as [Hc Ht]. now rewrite (IH Ht), Hc.
Qed.

Lemma rstrip_after_nonspace (a t : string) (c : ascii) :
  isspace c = false -> blank t = true ->
  rstrip (a ++ String c t) = (a ++ String c "")%string.
Proof.
  intros Hc Ht. induction a as [|d a IH]; cbn [append rstrip].
  - now rewrite (rstrip_blank t Ht), Hc, andb_false_r.
  - rewrite IH. destruct a; reflexivity.
Qed.

Lemma update_results_dns_result (w : World) (results : Report) (s : Widgets) :
  dns_result (_update_results w results s)
  = strip (dns_lines (dns_results results) ("DNS Resolution:" ++ nl)).
Proof.
  unfold _update_results.
  destruct (gateway results) as [g|]; [destruct (truthy g)|]; reflexivity.
Qed.

(** X18.  The DNS field that [_update_results] writes: for an empty
    mapping it is the header "DNS Resolution:" alone; for a mapping whose
    last result ends in a character that is not white space it is the
    header and one line for each entry, in the order of the mapping, the
    server and its result around an arrow, with no line feed after the
    last line. *)
Theorem update_results_dns_field :
  forall (w : World) (results : Report) (s : Widgets),
    (dns_results results = [] ->
     dns_result (_update_results w results s) = "DNS Resolution:")
    /\ (forall items server result c,
           dns_results results = items ++ [(server, (result ++ String c "")%string)] ->
           isspace c = false ->
           dns_result (_update_results w results s)
           = ("DNS Resolution:" ++ nl ++ dns_block items
              ++ dns_line server (result ++ String c ""))%string).
Proof.
  intros w results s. rewrite update_results_dns_result. split.
  - intros ->. reflexivity.
  - intros items server result c -> Hc.
    rewrite dns_lines_block, dns_block_app. cbn [dns_block].
    unfold strip.
    assert (forall x, lstrip ("DNS Resolution:" ++ x) = ("DNS Resolution:" ++ x)%string)
      as Hl by reflexivity.
    rewrite append_assoc, Hl.
    unfold dns_line. rewrite append_empty_r.
    replace ("DNS Resolution:" ++ nl ++
             dns_block items ++
             ("  " ++ server ++ " " ++ arrow_right ++ " " ++ result ++ String c "")
             ++ nl)%string
      with (("DNS Resolution:" ++ nl ++ dns_block items ++
             "  " ++ server ++ " " ++ arrow_right ++ " " ++ result)
            ++ String c nl)%string
      by (rewrite !append_assoc; reflexivity).
    rewrite (rstrip_after_nonspace _ nl c Hc eq_refl).
    rewrite !append_assoc. reflexivity.
Qed.

Lemma update_results_dns_field_witness :
  dns_result (_update_results no_route_world sample_report after_init)
  = ("DNS Resolution:" ++ nl
     ++ dns_block [("google.com", "142.250.1.1")]
     ++ dns_line "intranet" ("DNS resolution faile" ++ "d"))%string.
Proof.
  apply (proj2 (update_results_dns_field no_route_world sample_report after_init)
           [("google.com", "142.250.1.1")] "intranet" "DNS resolution faile"
           "d"%char);
    reflexivity.
Defined.
